(** * Outfit-to-wardrobe matching engine of the outfitAnalyzer service

    A shallow embedding of
    [ml-backend/services/outfitAnalyzer/src/code/outfit_with_wardrobe.py]
    and of the selection step of
    [ml-backend/services/outfitAnalyzer/src/code/outfit_service.py].

    Conventions.
    - Python [float] is IEEE binary64, which is Rocq's primitive [float];
      the small [int] constants of the source (-1, 0, 1, 2, 3, 4) are
      exactly representable, so scores are floats throughout and the
      Python comparison [x > y] is [y <? x].
    - Python [str] is modelled by [string], for ASCII text: there
      [str.lower()] lowers A-Z and nothing else. A character outside
      ASCII is removed by [normalize], as the code removes it, with two
      exceptions that are outside the model: the code keeps a [k] for
      U+212A and an [i] for U+0130, the two characters outside ASCII
      whose lower case holds an ASCII letter. [Optional[str]] is
      [option string], [None] being Python's [None].
    - A suggested item is a Python dict from attribute names to JSON
      strings or [null]: a [gmap string (option string)]. An outfit and a
      suggestion are typed in the same way. The module [Dyn] has the
      same functions on any JSON value, with Python's [TypeError] and
      [AttributeError]; on a suggestion of the typed shape the two agree
      ([generate_sim]).
    - Exceptions are explicit: a computation returns [Ok v] or [Raise e]. *)

From Stdlib Require Import PrimFloat Uint63 ZArith Ascii String.
From Stdlib Require Import SpecFloat FloatAxioms.
From stdpp Require Import gmap strings list.

Set Warnings "-inexact-float,-register-all".

#[local] Open Scope string_scope.

(** ** Numbers *)

Module Num.

Definition float_of_nat (n : nat) : float :=
  PrimFloat.of_uint63 (Uint63.of_Z (Z.of_nat n)).

(** Python's [x > y] on floats. *)
Definition gt (x y : float) : bool := PrimFloat.ltb y x.

End Num.

(** ** Exceptions *)

Inductive exn : Type :=
  | KeyError (key : string)
  | ValueError
  | TypeError
  | BadRequestError (error message : string).

Inductive result (A : Type) : Type :=
  | Ok (a : A)
  | Raise (e : exn).

Arguments Ok {A} a.
Arguments Raise {A} e.

#[global] Instance result_ret : MRet result := λ A a, Ok a.

#[global] Instance result_bind : MBind result := λ A B k m,
  match m with
  | Ok a => k a
  | Raise e => Raise e
  end.

(** ** Text: [normalize] *)

Definition is_upper (c : ascii) : bool :=
  let n := nat_of_ascii c in (65 <=? n)%nat && (n <=? 90)%nat.

(** [str.lower()] on ASCII text; of the characters outside ASCII, all
    but U+212A and U+0130 are lowered to characters that [normalize]
    removes. *)
Definition lower_char (c : ascii) : ascii :=
  if is_upper c then ascii_of_nat (nat_of_ascii c + 32) else c.

(** Membership in the character class [a-z0-9]. *)
Definition is_lower_alnum (c : ascii) : bool :=
  let n := nat_of_ascii c in
  ((97 <=? n)%nat && (n <=? 122)%nat) || ((48 <=? n)%nat && (n <=? 57)%nat).

Fixpoint lower (s : string) : string :=
  match s with
  | EmptyString => EmptyString
  | String c s' => String (lower_char c) (lower s')
  end.

(** [re.sub(r"[^a-z0-9]", "", s)]. *)
Fixpoint strip_non_alnum (s : string) : string :=
  match s with
  | EmptyString => EmptyString
  | String c s' =>
      if is_lower_alnum c then String c (strip_non_alnum s')
      else strip_non_alnum s'
  end.

(** Python truthiness of an [Optional[str]]: [None] and [""] are falsy. *)
Definition truthy (text : option string) : bool :=
  match text with
  | None => false
  | Some EmptyString => false
  | Some (String _ _) => true
  end.

Definition normalize (text : option string) : string :=
  match text with
  | None => ""
  | Some s => if truthy text then strip_non_alnum (lower s) else ""
  end.

(** [x in y] on strings. *)
Fixpoint str_in (x y : string) : bool :=
  String.prefix x y ||
  match y with
  | EmptyString => false
  | String _ y' => str_in x y'
  end.

(** ** [difflib.SequenceMatcher(None, a, b).ratio()]

    The Python standard library's matcher, with [isjunk = None] and the
    default [autojunk = True]. *)

Module SequenceMatcher.

Section Matcher.

Variables a b : list ascii.

Definition at_ (l : list ascii) (i : nat) : ascii := nth i l Ascii.zero.

(** Positions of [c] in [l], ascending, counted from [i]. *)
Fixpoint indices_from (c : ascii) (l : list ascii) (i : nat) : list nat :=
  match l with
  | [] => []
  | x :: l' =>
      if Ascii.eqb x c then i :: indices_from c l' (S i)
      else indices_from c l' (S i)
  end.

(** [__chain_b]: with [n >= 200] an element that occurs more than
    [n // 100 + 1] times is popular and is removed from [b2j]. *)
Definition popular (c : ascii) : bool :=
  let n := length b in
  (200 <=? n)%nat && (n / 100 + 1 <? length (indices_from c b 0))%nat.

(** [b2j.get(c, nothing)]. *)
Definition b2j (c : ascii) : list nat :=
  if popular c then [] else indices_from c b 0.

(** No junk predicate was given: [bjunk] is the empty set. *)
Definition isbjunk (c : ascii) : bool := false.

Definition Match : Type := (nat * nat * nat)%type.

(** [j2len.get(j-1, 0)]; for [j = 0] the key [-1] is never present. *)
Definition j2lenget (j2len : gmap nat nat) (j : nat) : nat :=
  match j with
  | O => 0%nat
  | S j' => default 0%nat (j2len !! j')
  end.

(** The inner loop [for j in b2j.get(a[i], nothing)] of
    [find_longest_match], with its [continue] and [break]. *)
Fixpoint scan_js (js : list nat) (i blo bhi : nat) (j2len newj2len : gmap nat nat)
    (best : Match) : gmap nat nat * Match :=
  match js with
  | [] => (newj2len, best)
  | j :: js' =>
      if (j <? blo)%nat then scan_js js' i blo bhi j2len newj2len best
      else if (bhi <=? j)%nat then (newj2len, best)
      else
        let k := (j2lenget j2len j + 1)%nat in
        let newj2len := <[j := k]> newj2len in
        let best :=
          let '(_, _, bestsize) := best in
          if (bestsize <? k)%nat then ((i + 1 - k)%nat, (j + 1 - k)%nat, k)
          else best in
        scan_js js' i blo bhi j2len newj2len best
  end.

(** The outer loop [for i in range(alo, ahi)]. *)
Fixpoint scan_is (is_ : list nat) (blo bhi : nat) (j2len : gmap nat nat)
    (best : Match) : Match :=
  match is_ with
  | [] => best
  | i :: is' =>
      let '(newj2len, best) := scan_js (b2j (at_ a i)) i blo bhi j2len ∅ best in
      scan_is is' blo bhi newj2len best
  end.

(** The [while] loops that extend the block to the left over equal
    elements of a given junk status; [besti] decreases at each iteration
    and the loop stops at the latest when it is 0. *)
Fixpoint extend_left_from (junk : bool) (alo blo : nat) (besti bestj bestsize : nat)
    : Match :=
  match besti with
  | O => (besti, bestj, bestsize)
  | S i' =>
      if (alo <? besti)%nat && (blo <? bestj)%nat
         && Bool.eqb (isbjunk (at_ b (bestj - 1))) junk
         && Ascii.eqb (at_ a i') (at_ b (bestj - 1))
      then extend_left_from junk alo blo i' (bestj - 1)%nat (S bestsize)
      else (besti, bestj, bestsize)
  end.

Definition extend_left (junk : bool) (alo blo : nat) (m : Match) : Match :=
  let '(besti, bestj, bestsize) := m in
  extend_left_from junk alo blo besti bestj bestsize.

(** The [while] loops that extend the block to the right; [bestsize]
    grows by one at each iteration while [besti + bestsize < ahi], so
    there are at most [n = ahi - (besti + bestsize)] iterations. *)
Fixpoint extend_right_for (n : nat) (junk : bool) (ahi bhi : nat)
    (besti bestj bestsize : nat) : Match :=
  match n with
  | O => (besti, bestj, bestsize)
  | S n' =>
      if (besti + bestsize <? ahi)%nat && (bestj + bestsize <? bhi)%nat
         && Bool.eqb (isbjunk (at_ b (bestj + bestsize))) junk
         && Ascii.eqb (at_ a (besti + bestsize)) (at_ b (bestj + bestsize))
      then extend_right_for n' junk ahi bhi besti bestj (S bestsize)
      else (besti, bestj, bestsize)
  end.

Definition extend_right (junk : bool) (ahi bhi : nat) (m : Match) : Match :=
  let '(besti, bestj, bestsize) := m in
  extend_right_for (ahi - (besti + bestsize)) junk ahi bhi besti bestj bestsize.

Definition find_longest_match (alo ahi blo bhi : nat) : Match :=
  let m := scan_is (seq alo (ahi - alo)) blo bhi ∅ (alo, blo, 0%nat) in
  let m := extend_left false alo blo m in
  let m := extend_right false ahi bhi m in
  let m := extend_left true alo blo m in
  extend_right true ahi bhi m.

(** The work list of [get_matching_blocks]; the head of [queue] is
    the end of the Python list, where [pop] and [append] operate.
    Every iteration either finds no block or removes at least one
    element of each side from further consideration, so
    [2 * min (len a) (len b) + 1] iterations empty the queue
    ([get_matching_blocks_complete] below). *)
Fixpoint blocks_loop (fuel : nat) (queue : list (nat * nat * nat * nat))
    (matching_blocks : list Match) : list Match :=
  match fuel, queue with
  | O, _ => matching_blocks
  | _, [] => matching_blocks
  | S fuel', (alo, ahi, blo, bhi) :: queue =>
      let '(i, j, k) := find_longest_match alo ahi blo bhi in
      if (k =? 0)%nat then blocks_loop fuel' queue matching_blocks
      else
        let matching_blocks := (matching_blocks ++ [(i, j, k)])%list in
        let queue :=
          if (alo <? i)%nat && (blo <? j)%nat then (alo, i, blo, j) :: queue
          else queue in
        let queue :=
          if (i + k <? ahi)%nat && (j + k <? bhi)%nat
          then ((i + k)%nat, ahi, (j + k)%nat, bhi) :: queue
          else queue in
        blocks_loop fuel' queue matching_blocks
  end.

(** The blocks before they are sorted, merged when adjacent and
    closed by the sentinel [(la, lb, 0)]; none of these steps changes
    the sum of the sizes, which is all that [ratio] reads. *)
Definition get_matching_blocks : list Match :=
  let la := length a in
  let lb := length b in
  blocks_loop (2 * Nat.min la lb + 1) [(0%nat, la, 0%nat, lb)] [].

Definition _calculate_ratio (matches len : nat) : float :=
  if (len =? 0)%nat then 1.0%float
  else (2.0 * Num.float_of_nat matches / Num.float_of_nat len)%float.

Definition ratio : float :=
  let matches := foldr (λ '(_, _, k) acc, (k + acc)%nat) 0%nat get_matching_blocks in
  _calculate_ratio matches (length a + length b).

End Matcher.

(** *** Bounds on the loop of [get_matching_blocks] *)

(** The block [m] lies in the window [alo, ahi) x [blo, bhi). *)
Definition within (alo ahi blo bhi : nat) (m : Match) : Prop :=
  let '(i, j, k) := m in
  (alo ≤ i ∧ i + k ≤ ahi ∧ blo ≤ j ∧ j + k ≤ bhi)%nat.

(** Every run recorded in a row of [j2len] has length at most [n] and
    fits between [blo] and its last position. *)
Definition row_ok (blo n : nat) (j2len : gmap nat nat) : Prop :=
  ∀ j k, j2len !! j = Some k → (k ≤ n ∧ k ≤ j + 1 - blo ∧ blo ≤ j)%nat.

(** What is left to do for a work list: each window costs one iteration
    for itself and at most two for every position it can still match. *)
Definition work (queue : list (nat * nat * nat * nat)) : nat :=
  foldr (λ '(alo, ahi, blo, bhi) acc, (2 * Nat.min (ahi - alo) (bhi - blo) + 1 + acc)%nat)
        0%nat queue.

Definition window_ok (w : nat * nat * nat * nat) : Prop :=
  let '(alo, ahi, blo, bhi) := w in (alo ≤ ahi ∧ blo ≤ bhi)%nat.

End SequenceMatcher.

(** ** [get_text_similarity] *)

Definition get_text_similarity (text1 text2 : option string) : float :=
  if negb (truthy text1) || negb (truthy text2) then 0%float
  else SequenceMatcher.ratio (list_ascii_of_string (normalize text1))
                             (list_ascii_of_string (normalize text2)).

(** ** Data model *)

(** [class WardrobeItem(BaseModel)]. *)
Record WardrobeItem : Type := {
  item_id : string;
  type : string;
  color : option string;
  pattern : option string;
  fabric : option string;
  description : option string;
  brand : option string;
  image_url : option string;
  created_at : option Z;
}.

(** A suggested clothing item: the dict the suggestion step produced,
    its attributes strings or [null]; for an attribute of another type
    see [Dyn.normalize]. *)
Abbreviation SuggestedItem := (gmap string (option string)).

(** [d.get(key, "")]. *)
Definition get_or_empty (d : SuggestedItem) (key : string) : option string :=
  default (Some "") (d !! key).

(** One candidate outfit: a dict whose keys may be missing ([None]).
    Where present, the name is a string and the clothing items are a list
    of suggested items; for a value of another type, as [null] under
    ["clothing_items"], see [Dyn.match_outfits]. *)
Record Outfit : Type := {
  o_outfit_name : option string;
  o_clothing_items : option (list SuggestedItem);
}.

(** The parsed suggestion: the dict whose ["outfit_recommendations"] key
    the matcher reads, and the names of whatever other keys it holds. *)
Record OutfitSuggestion : Type := {
  outfit_recommendations : option (list Outfit);
  other_keys : list string;
}.

(** The ["suggestion"] entry of a slot result. *)
Record Suggestion : Type := {
  sg_type : option string;
  sg_description : option string;
  sg_color : option string;
  sg_fabric : option string;
  sg_pattern : option string;
}.

Definition suggestion_of (item : SuggestedItem) : Suggestion :=
  {| sg_type := get_or_empty item "type";
     sg_description := get_or_empty item "description";
     sg_color := get_or_empty item "color";
     sg_fabric := get_or_empty item "fabric";
     sg_pattern := get_or_empty item "pattern" |}.

(** The two shapes of dict appended to [matched_items]. *)
Inductive MatchResult : Type :=
  | Matched (m_item_id : string) (m_description : option string) (m_type : string)
      (m_color m_fabric : option string) (m_score : float) (m_suggestion : Suggestion)
  | NoMatchFound (m_type : option string) (m_suggestion : Suggestion).

(** [r["item_id"]]. *)
Definition mr_item_id (r : MatchResult) : option string :=
  match r with
  | Matched i _ _ _ _ _ _ => Some i
  | NoMatchFound _ _ => None
  end.

(** [r["score"]]. *)
Definition mr_score (r : MatchResult) : float :=
  match r with
  | Matched _ _ _ _ _ s _ => s
  | NoMatchFound _ _ => (-1)%float
  end.

(** [r["description"]]. *)
Definition mr_description (r : MatchResult) : option string :=
  match r with
  | Matched _ d _ _ _ _ _ => d
  | NoMatchFound _ _ => Some "No match found"
  end.

Record OutfitMatch : Type := {
  outfit_name : string;
  total_score : float;
  matched_items : list MatchResult;
}.

(** What [match_outfit_with_wardrobe] returns: the dict [{"error": ...}]
    or the list of outfit matches. *)
Inductive MatcherOutput : Type :=
  | ErrorDict (error : string)
  | OutfitMatches (outfit_matches : list OutfitMatch).

Record Recommendation : Type := {
  user_id : string;
  occasion : string;
  outfit : list WardrobeItem;
}.

(** ** [get_match_score] *)

(** [summary_item.get("type", summary_item.get("category", ""))]. *)
Definition summary_type (summary_item : SuggestedItem) : option string :=
  default (get_or_empty summary_item "category") (summary_item !! "type").

Definition type_matches (summary_item : SuggestedItem) (wardrobe_item : WardrobeItem) : bool :=
  String.eqb (normalize (Some (type wardrobe_item))) (normalize (summary_type summary_item)).

(** Color matching. *)
Definition add_color (summary_item : SuggestedItem) (wardrobe_item : WardrobeItem)
    (score : float) : float :=
  if String.eqb (normalize (color wardrobe_item))
                (normalize (get_or_empty summary_item "color"))
  then (score + 2)%float else score.

(** Pattern matching. *)
Definition add_pattern (summary_item : SuggestedItem) (wardrobe_item : WardrobeItem)
    (score : float) : float :=
  if String.eqb (normalize (pattern wardrobe_item))
                (normalize (get_or_empty summary_item "pattern"))
  then (score + 4)%float else score.

(** Python truthiness of a [str]. *)
Definition nonempty (s : string) : bool :=
  match s with
  | EmptyString => false
  | String _ _ => true
  end.

(** Material matching. *)
Definition add_fabric (summary_item : SuggestedItem) (wardrobe_item : WardrobeItem)
    (score : float) : float :=
  let mat1 := normalize (fabric wardrobe_item) in
  let mat2 := normalize (get_or_empty summary_item "fabric") in
  if nonempty mat1 && nonempty mat2 && (str_in mat1 mat2 || str_in mat2 mat1)
  then (score + 3)%float else score.

(** Description similarity. *)
Definition add_description (summary_item : SuggestedItem) (wardrobe_item : WardrobeItem)
    (score : float) : float :=
  let desc_similarity :=
    get_text_similarity (description wardrobe_item)
                        (get_or_empty summary_item "description") in
  (score + desc_similarity * 1.5)%float.

Definition get_match_score (summary_item : SuggestedItem) (wardrobe_item : WardrobeItem)
    : float :=
  if negb (type_matches summary_item wardrobe_item) then (-1)%float
  else
    let score := 1%float in
    let score := add_color summary_item wardrobe_item score in
    let score := add_pattern summary_item wardrobe_item score in
    let score := add_fabric summary_item wardrobe_item score in
    add_description summary_item wardrobe_item score.

(** ** [find_best_match] *)

(** The loop [for matched_item in matching_set_items]. *)
Fixpoint penalize (matching_set_items : list WardrobeItem) (item : WardrobeItem)
    (score : float) : float :=
  match matching_set_items with
  | [] => score
  | matched_item :: rest =>
      let desc_similarity :=
        get_text_similarity (description item) (description matched_item) in
      let score :=
        if Num.gt desc_similarity 0.7 then (score - desc_similarity * 2)%float
        else score in
      penalize rest item score
  end.

(** Python truthiness of a list. *)
Definition nonempty_list {A : Type} (l : list A) : bool :=
  match l with
  | [] => false
  | _ :: _ => true
  end.

(** The score a same-type candidate competes with. *)
Definition adjusted_score (suggested_item : SuggestedItem) (item : WardrobeItem)
    (matching_set_items : list WardrobeItem) : float :=
  let score := get_match_score suggested_item item in
  if nonempty_list matching_set_items && Num.gt score 0
  then penalize matching_set_items item score
  else score.

(** The loop [for item in wardrobe_items], on the pair
    [(best_item, highest_score)]. *)
Fixpoint best_match_loop (suggested_item : SuggestedItem) (items : list WardrobeItem)
    (used_items : gset string) (matching_set_items : list WardrobeItem)
    (best_item : option WardrobeItem) (highest_score : float)
    : result (option WardrobeItem * float) :=
  match items with
  | [] => Ok (best_item, highest_score)
  | item :: rest =>
      if decide (item_id item ∈ used_items)
      then best_match_loop suggested_item rest used_items matching_set_items
             best_item highest_score
      else
        match suggested_item !! "type" with
        | None => Raise (KeyError "type")
        | Some suggested_type =>
            if String.eqb (normalize (Some (type item))) (normalize suggested_type)
            then
              let score := adjusted_score suggested_item item matching_set_items in
              if Num.gt score highest_score
              then best_match_loop suggested_item rest used_items matching_set_items
                     (Some item) score
              else best_match_loop suggested_item rest used_items matching_set_items
                     best_item highest_score
            else best_match_loop suggested_item rest used_items matching_set_items
                   best_item highest_score
        end
  end.

Definition find_best_match (suggested_item : SuggestedItem)
    (wardrobe_items : list WardrobeItem) (used_items : gset string)
    (matching_set_items : list WardrobeItem) : result (option WardrobeItem * float) :=
  best_match_loop suggested_item wardrobe_items used_items matching_set_items
    None (-1)%float.

(** ** [match_outfit_with_wardrobe] *)

(** The variables the loop over one outfit's [clothing_items] updates;
    [used_items] outlives the outfit. *)
Record SlotState : Type := {
  st_matched_items : list MatchResult;
  st_matched_items_objects : list WardrobeItem;
  st_total_score : float;
  st_used_items : gset string;
}.

Definition matched_entry (best_match : WardrobeItem) (score : float)
    (item : SuggestedItem) : MatchResult :=
  Matched (item_id best_match) (description best_match) (type best_match)
    (color best_match) (fabric best_match) score (suggestion_of item).

Definition no_match_entry (item : SuggestedItem) : MatchResult :=
  NoMatchFound (get_or_empty item "type") (suggestion_of item).

(** The loop [for item in clothing_items]. *)
Fixpoint match_slots (clothing_items : list SuggestedItem) (wardrobe : list WardrobeItem)
    (st : SlotState) : result SlotState :=
  match clothing_items with
  | [] => Ok st
  | item :: rest =>
      '(best_match, score) ←
        find_best_match item wardrobe (st_used_items st) (st_matched_items_objects st);
      match best_match with
      | Some best_match =>
          match_slots rest wardrobe
            {| st_matched_items :=
                 (st_matched_items st ++ [matched_entry best_match score item])%list;
               st_matched_items_objects :=
                 (st_matched_items_objects st ++ [best_match])%list;
               st_total_score := (st_total_score st + score)%float;
               st_used_items := st_used_items st ∪ {[item_id best_match]} |}
      | None =>
          match_slots rest wardrobe
            {| st_matched_items := (st_matched_items st ++ [no_match_entry item])%list;
               st_matched_items_objects := st_matched_items_objects st;
               st_total_score := st_total_score st;
               st_used_items := st_used_items st |}
      end
  end.

(** The loop [for outfit in outfit_suggestion["outfit_recommendations"]],
    on [outfit_matches] and [used_items]; a [return] inside the loop ends
    it with the returned dict. *)
Fixpoint match_outfits (outfits : list Outfit) (wardrobe : list WardrobeItem)
    (outfit_matches : list OutfitMatch) (used_items : gset string)
    : result MatcherOutput :=
  match outfits with
  | [] => Ok (OutfitMatches outfit_matches)
  | outfit :: rest =>
      match o_clothing_items outfit with
      | None => Ok (ErrorDict "No clothing items in outfit suggestion")
      | Some clothing_items =>
          match o_outfit_name outfit with
          | None => Raise (KeyError "outfit_name")
          | Some outfit_name =>
              st ← match_slots clothing_items wardrobe
                     {| st_matched_items := [];
                        st_matched_items_objects := [];
                        st_total_score := 0%float;
                        st_used_items := used_items |};
              match_outfits rest wardrobe
                (outfit_matches ++
                   [{| outfit_name := outfit_name;
                       total_score := st_total_score st;
                       matched_items := st_matched_items st |}])%list
                (st_used_items st)
          end
      end
  end.

Definition match_outfit_with_wardrobe (outfit_suggestion : OutfitSuggestion)
    (wardrobe : list WardrobeItem) : result MatcherOutput :=
  match outfit_recommendations outfit_suggestion with
  | None => Ok (ErrorDict "Invalid outfit suggestion format")
  | Some outfits => match_outfits outfits wardrobe [] ∅
  end.

(** ** The selection step of [generate_outfit_recommendation] *)

(** [max(outfit_matches, key=lambda x: x["total_score"])] on a list: the
    first element whose key no later element exceeds. *)
Fixpoint max_loop (l : list OutfitMatch) (best : OutfitMatch) : OutfitMatch :=
  match l with
  | [] => best
  | x :: l' =>
      if Num.gt (total_score x) (total_score best) then max_loop l' x
      else max_loop l' best
  end.

(** On an empty list [max] raises [ValueError] (its argument is an empty
    sequence); on the error dict it iterates over the keys, and the key
    function indexes the string ["error"] with a string: [TypeError]. *)
Definition highest_score (out : MatcherOutput) : result OutfitMatch :=
  match out with
  | ErrorDict _ => Raise TypeError
  | OutfitMatches [] => Raise ValueError
  | OutfitMatches (x :: l) => Ok (max_loop l x)
  end.

(** [not outfit_suggestion]: the dict is empty. *)
Definition empty_suggestion (outfit_suggestion : OutfitSuggestion) : bool :=
  match outfit_recommendations outfit_suggestion, other_keys outfit_suggestion with
  | None, [] => true
  | _, _ => false
  end.

(** [generate_outfit_recommendation] from the parsed suggestion on: the
    search and generation calls of steps 1 and 2 are external, and their
    outcome [outfit_suggestion] is an argument here. *)
Definition generate_outfit_recommendation (user_id occasion : string)
    (outfit_suggestion : OutfitSuggestion) (wardrobe_items : list WardrobeItem)
    : result Recommendation :=
  if empty_suggestion outfit_suggestion
  then Raise (BadRequestError "outfit_suggestion" "Failed to generate outfit suggestion")
  else
  outfit_matches ← match_outfit_with_wardrobe outfit_suggestion wardrobe_items;
  highest_score_outfit ← highest_score outfit_matches;
  let best_item_ids := mr_item_id <$> matched_items highest_score_outfit in
  let best_items :=
    filter (λ item, Some (item_id item) ∈ best_item_ids) wardrobe_items in
  Ok {| user_id := user_id; occasion := occasion; outfit := best_items |}.

(** ** Vocabulary of the statements *)

(** An item the engine may give to a slot of type [suggested_type]: not
    used yet and of the same normalized type. *)
Definition candidate (suggested_type : option string) (used_items : gset string)
    (item : WardrobeItem) : Prop :=
  (item_id item ∉ used_items)
  ∧ normalize (Some (type item)) = normalize suggested_type.

(** The wardrobe item ids a list of slot results assigns, in slot order. *)
Definition assigned_ids (rs : list MatchResult) : list string := omap mr_item_id rs.

(** The scores of the matched slots, in slot order. *)
Definition matched_score (r : MatchResult) : option float :=
  match r with
  | Matched _ _ _ _ _ s _ => Some s
  | NoMatchFound _ _ => None
  end.

Definition matched_scores (rs : list MatchResult) : list float := omap matched_score rs.

(** [acc + x1 + x2 + ...], added from the left as the loop does. *)
Definition sum_from (acc : float) (xs : list float) : float :=
  fold_left PrimFloat.add xs acc.

(** All the ids a list of outfit matches assigns, outfit after outfit. *)
Definition all_assigned_ids (rs : list OutfitMatch) : list string :=
  rs ≫= (λ r, assigned_ids (matched_items r)).

(** A slot the engine can process against any wardrobe. *)
Definition well_formed_slot (item : SuggestedItem) : Prop := is_Some (item !! "type").

(** An outfit with its name, its list of slots, and a type for each slot. *)
Definition well_formed_outfit (o : Outfit) : Prop :=
  is_Some (o_outfit_name o)
  ∧ ∃ items, o_clothing_items o = Some items ∧ Forall well_formed_slot items.

(** An outfit that has its two keys. *)
Definition named_outfit (o : Outfit) : Prop :=
  is_Some (o_outfit_name o) ∧ is_Some (o_clothing_items o).

(** The outfit match in which every slot of [o] is left unmatched. *)
Definition unmatched_outfit (o : Outfit) : OutfitMatch :=
  {| outfit_name := default "" (o_outfit_name o);
     total_score := 0;
     matched_items := no_match_entry <$> default [] (o_clothing_items o) |}.

(** [r["suggestion"]]. *)
Definition mr_suggestion (r : MatchResult) : Suggestion :=
  match r with
  | Matched _ _ _ _ _ _ g => g
  | NoMatchFound _ g => g
  end.

(** [candidate], as a test. *)
Definition candidateb (suggested_type : option string) (used_items : gset string)
    (item : WardrobeItem) : bool :=
  bool_decide (item_id item ∉ used_items)
  && String.eqb (normalize (Some (type item))) (normalize suggested_type).

(** What the matcher may record for the slot [item]: the sentinel, or an
    entry copied from an item [w] of the wardrobe whose normalized type is
    that of the slot, with a score above -1. *)
Definition slot_filled_from (wardrobe : list WardrobeItem) (item : SuggestedItem)
    (m : MatchResult) : Prop :=
  m = no_match_entry item
  ∨ ∃ w score suggested_type,
      w ∈ wardrobe
      ∧ m = matched_entry w score item
      ∧ item !! "type" = Some suggested_type
      ∧ normalize (Some (type w)) = normalize suggested_type
      ∧ Num.gt score (-1) = true.

(** The outfit match [r] answers the candidate outfit [o]: same name, one
    slot result per suggested item, in order. *)
Definition outfit_matched_from (wardrobe : list WardrobeItem) (o : Outfit)
    (r : OutfitMatch) : Prop :=
  ∃ clothing_items,
    o_outfit_name o = Some (outfit_name r)
    ∧ o_clothing_items o = Some clothing_items
    ∧ Forall2 (slot_filled_from wardrobe) clothing_items (matched_items r).

(** The number of characters in the blocks of the two sequences: the
    [matches] of [ratio]. *)
Definition matched_chars (a b : list ascii) : nat :=
  foldr (λ '(_, _, k) acc, (k + acc)%nat) 0%nat (SequenceMatcher.get_matching_blocks a b).

(** The sizes of a list of blocks, added up. *)
Definition blocks_size (blocks : list SequenceMatcher.Match) : nat :=
  foldr (λ '(_, _, k) acc, (k + acc)%nat) 0%nat blocks.

(** The number of positions the windows of a work list can still match:
    for each window, the length of its shorter side. *)
Definition windows_room (queue : list (nat * nat * nat * nat)) : nat :=
  foldr (λ '(alo, ahi, blo, bhi) acc, (Nat.min (ahi - alo) (bhi - blo) + acc)%nat)
        0%nat queue.

(** The values of the attribute part of a score: 1 for the type, and
    2, 4 and 3 for the color, the pattern and the fabric. *)
Definition attribute_scores : list float :=
  [1; 3; 5; 7; 4; 6; 8; 10]%float.

(** ** [exceptions/http_exceptions.py] and the handlers of [app.py] *)

Module Http.

(** [class HTTPError(Exception)]: its three attributes. A subclass sets
    the status code and adds nothing; which class an error belongs to is
    not recorded. *)
Record HTTPError : Type := {
  status_code : Z;
  error : string;
  message : string;
}.

Definition BadRequestError (error message : string) : HTTPError :=
  {| status_code := 400; error := error; message := message |}.

Definition NotFoundError (error message : string) : HTTPError :=
  {| status_code := 404; error := error; message := message |}.

Definition ValidationError (error message : string) : HTTPError :=
  {| status_code := 422; error := error; message := message |}.


Inductive JsonValue : Type :=
  | JInt (n : Z)
  | JStr (s : string).


(** [JSONResponse(status_code=..., content=...)]. *)
Record JSONResponse : Type := {
  response_status : Z;
  content : gmap string JsonValue;
}.


Definition general_exception_handler : JSONResponse :=
  {| response_status := 500;
     content := {[ "status_code" := JInt 500;
                   "error" := JStr "internal_error";
                   "message" := JStr "Internal server error" ]} |}.

End Http.



(** ** The matcher on an arbitrary parsed suggestion

    [parse_suggestion_response] returns whatever [json.loads] built. The
    functions above cover the suggestions of the shape the matcher reads: a
    dict, lists of dicts, and a string or [null] for each attribute of a
    clothing item. The functions of this module are the same source
    functions on any JSON value, with the exception Python raises where a
    value has another type; the wardrobe items are validated by pydantic
    and keep their types. *)

Module Dyn.

(** A value built by [json.loads]. A dict is the list of its items in
    insertion order, its keys pairwise distinct. *)
Inductive Json : Type :=
  | JNull
  | JBool (b : bool)
  | JInt (n : Z)
  | JFloat (x : float)
  | JStr (s : string)
  | JList (elements : list Json)
  | JDict (items : list (string * Json)).

(** The exceptions above, and the [AttributeError] of a method that the
    value does not have. *)
Inductive error : Type :=
  | Exn (e : exn)
  | AttributeError.

Inductive run (A : Type) : Type :=
  | Returns (a : A)
  | Raises (e : error).

Arguments Returns {A} a.
Arguments Raises {A} e.

#[global] Instance run_ret : MRet run := λ A a, Returns a.

#[global] Instance run_bind : MBind run := λ A B k m,
  match m with
  | Returns a => k a
  | Raises e => Raises e
  end.

(** An [Optional[str]] as a value. *)
Definition of_text (text : option string) : Json :=
  match text with
  | None => JNull
  | Some s => JStr s
  end.

(** Python truthiness: [None], [False], zero and the empty string, list
    and dict are falsy. *)
Definition truth (v : Json) : bool :=
  match v with
  | JNull => false
  | JBool b => b
  | JInt n => negb (n =? 0)%Z
  | JFloat x => negb (x =? 0)%float
  | JStr s => nonempty s
  | JList elements => nonempty_list elements
  | JDict items => nonempty_list items
  end.

(** The value under [key] in the items of a dict. *)
Fixpoint lookup_key (key : string) (items : list (string * Json)) : option Json :=
  match items with
  | [] => None
  | (k, v) :: items' => if String.eqb k key then Some v else lookup_key key items'
  end.

Definition is_str (key : string) (v : Json) : bool :=
  match v with
  | JStr s => String.eqb s key
  | _ => false
  end.

(** [key in v]: a key of a dict, an element of a list, a substring of a
    string; [TypeError] on a value that is not iterable. *)
Definition contains (key : string) (v : Json) : run bool :=
  match v with
  | JDict items =>
      Returns (match lookup_key key items with Some _ => true | None => false end)
  | JList elements => Returns (existsb (is_str key) elements)
  | JStr s => Returns (str_in key s)
  | _ => Raises (Exn TypeError)
  end.

(** [v[key]] for a string [key]: [KeyError] on a dict without the key,
    [TypeError] on a list or a string (their indices are integers) and on
    a value that is not subscriptable. *)
Definition getitem (v : Json) (key : string) : run Json :=
  match v with
  | JDict items =>
      match lookup_key key items with
      | Some x => Returns x
      | None => Raises (Exn (KeyError key))
      end
  | _ => Raises (Exn TypeError)
  end.

(** [v.get(key, default)]: only a dict has the method. *)
Definition get (v : Json) (key : string) (default : Json) : run Json :=
  match v with
  | JDict items =>
      Returns (match lookup_key key items with Some x => x | None => default end)
  | _ => Raises AttributeError
  end.

(** The values of [for x in v]: the elements of a list, the keys of a
    dict, the characters of a string. *)
Definition iter (v : Json) : run (list Json) :=
  match v with
  | JList elements => Returns elements
  | JDict items => Returns (JStr <$> items.*1)
  | JStr s => Returns ((λ c, JStr (String c "")) <$> list_ascii_of_string s)
  | _ => Raises (Exn TypeError)
  end.

(** [normalize]: a falsy value gives [""]; of the others only a string
    has [.lower()]. *)
Definition normalize (text : Json) : run string :=
  if negb (truth text) then Returns ""
  else
    match text with
    | JStr s => Returns (strip_non_alnum (lower s))
    | _ => Raises AttributeError
    end.

Definition get_text_similarity (text1 text2 : Json) : run float :=
  if negb (truth text1) || negb (truth text2) then Returns 0%float
  else
    a ← normalize text1;
    b ← normalize text2;
    Returns (SequenceMatcher.ratio (list_ascii_of_string a) (list_ascii_of_string b)).

Definition get_match_score (summary_item : Json) (wardrobe_item : WardrobeItem)
    : run float :=
  category ← get summary_item "category" (JStr "");
  summary_type ← get summary_item "type" category;
  type1 ← normalize (JStr (type wardrobe_item));
  type2 ← normalize summary_type;
  if negb (String.eqb type1 type2) then Returns (-1)%float
  else
    let score := 1%float in
    color1 ← normalize (of_text (color wardrobe_item));
    color2 ← get summary_item "color" (JStr "");
    color2 ← normalize color2;
    let score := if String.eqb color1 color2 then (score + 2)%float else score in
    pattern1 ← normalize (of_text (pattern wardrobe_item));
    pattern2 ← get summary_item "pattern" (JStr "");
    pattern2 ← normalize pattern2;
    let score := if String.eqb pattern1 pattern2 then (score + 4)%float else score in
    mat1 ← normalize (of_text (fabric wardrobe_item));
    mat2 ← get summary_item "fabric" (JStr "");
    mat2 ← normalize mat2;
    let score :=
      if nonempty mat1 && nonempty mat2 && (str_in mat1 mat2 || str_in mat2 mat1)
      then (score + 3)%float else score in
    description2 ← get summary_item "description" (JStr "");
    desc_similarity ←
      get_text_similarity (of_text (description wardrobe_item)) description2;
    Returns (score + desc_similarity * 1.5)%float.

(** The loop [for matched_item in matching_set_items]. *)
Fixpoint penalize (matching_set_items : list WardrobeItem) (item : WardrobeItem)
    (score : float) : run float :=
  match matching_set_items with
  | [] => Returns score
  | matched_item :: rest =>
      desc_similarity ←
        get_text_similarity (of_text (description item))
                            (of_text (description matched_item));
      let score :=
        if Num.gt desc_similarity 0.7 then (score - desc_similarity * 2)%float
        else score in
      penalize rest item score
  end.

Definition adjusted_score (suggested_item : Json) (item : WardrobeItem)
    (matching_set_items : list WardrobeItem) : run float :=
  score ← get_match_score suggested_item item;
  if nonempty_list matching_set_items && Num.gt score 0
  then penalize matching_set_items item score
  else Returns score.

(** The loop [for item in wardrobe_items]. *)
Fixpoint best_match_loop (suggested_item : Json) (items : list WardrobeItem)
    (used_items : gset string) (matching_set_items : list WardrobeItem)
    (best_item : option WardrobeItem) (highest_score : float)
    : run (option WardrobeItem * float) :=
  match items with
  | [] => Returns (best_item, highest_score)
  | item :: rest =>
      if decide (item_id item ∈ used_items)
      then best_match_loop suggested_item rest used_items matching_set_items
             best_item highest_score
      else
        suggested_type ← getitem suggested_item "type";
        item_type ← normalize (JStr (type item));
        suggested_type ← normalize suggested_type;
        if String.eqb item_type suggested_type
        then
          score ← adjusted_score suggested_item item matching_set_items;
          if Num.gt score highest_score
          then best_match_loop suggested_item rest used_items matching_set_items
                 (Some item) score
          else best_match_loop suggested_item rest used_items matching_set_items
                 best_item highest_score
        else best_match_loop suggested_item rest used_items matching_set_items
               best_item highest_score
  end.

Definition find_best_match (suggested_item : Json)
    (wardrobe_items : list WardrobeItem) (used_items : gset string)
    (matching_set_items : list WardrobeItem) : run (option WardrobeItem * float) :=
  best_match_loop suggested_item wardrobe_items used_items matching_set_items
    None (-1)%float.

(** The ["suggestion"] entry of a slot result. *)
Record Suggestion : Type := {
  sg_type : Json;
  sg_description : Json;
  sg_color : Json;
  sg_fabric : Json;
  sg_pattern : Json;
}.

Definition suggestion_of (item : Json) : run Suggestion :=
  type_ ← get item "type" (JStr "");
  description_ ← get item "description" (JStr "");
  color_ ← get item "color" (JStr "");
  fabric_ ← get item "fabric" (JStr "");
  pattern_ ← get item "pattern" (JStr "");
  Returns {| sg_type := type_; sg_description := description_; sg_color := color_;
             sg_fabric := fabric_; sg_pattern := pattern_ |}.

Inductive MatchResult : Type :=
  | Matched (m_item_id : string) (m_description : option string) (m_type : string)
      (m_color m_fabric : option string) (m_score : float) (m_suggestion : Suggestion)
  | NoMatchFound (m_type : Json) (m_suggestion : Suggestion).

Definition mr_item_id (r : MatchResult) : option string :=
  match r with
  | Matched i _ _ _ _ _ _ => Some i
  | NoMatchFound _ _ => None
  end.

Record OutfitMatch : Type := {
  outfit_name : Json;
  total_score : float;
  matched_items : list MatchResult;
}.

Inductive MatcherOutput : Type :=
  | ErrorDict (error : string)
  | OutfitMatches (outfit_matches : list OutfitMatch).

Record SlotState : Type := {
  st_matched_items : list MatchResult;
  st_matched_items_objects : list WardrobeItem;
  st_total_score : float;
  st_used_items : gset string;
}.

Definition matched_entry (best_match : WardrobeItem) (score : float) (item : Json)
    : run MatchResult :=
  suggestion ← suggestion_of item;
  Returns (Matched (item_id best_match) (description best_match) (type best_match)
             (color best_match) (fabric best_match) score suggestion).

Definition no_match_entry (item : Json) : run MatchResult :=
  type_ ← get item "type" (JStr "");
  suggestion ← suggestion_of item;
  Returns (NoMatchFound type_ suggestion).

(** The loop [for item in clothing_items]. *)
Fixpoint match_slots (clothing_items : list Json) (wardrobe : list WardrobeItem)
    (st : SlotState) : run SlotState :=
  match clothing_items with
  | [] => Returns st
  | item :: rest =>
      '(best_match, score) ←
        find_best_match item wardrobe (st_used_items st) (st_matched_items_objects st);
      match best_match with
      | Some best_match =>
          entry ← matched_entry best_match score item;
          match_slots rest wardrobe
            {| st_matched_items := (st_matched_items st ++ [entry])%list;
               st_matched_items_objects :=
                 (st_matched_items_objects st ++ [best_match])%list;
               st_total_score := (st_total_score st + score)%float;
               st_used_items := st_used_items st ∪ {[item_id best_match]} |}
      | None =>
          entry ← no_match_entry item;
          match_slots rest wardrobe
            {| st_matched_items := (st_matched_items st ++ [entry])%list;
               st_matched_items_objects := st_matched_items_objects st;
               st_total_score := st_total_score st;
               st_used_items := st_used_items st |}
      end
  end.

(** The loop [for outfit in outfit_suggestion["outfit_recommendations"]]. *)
Fixpoint match_outfits (outfits : list Json) (wardrobe : list WardrobeItem)
    (outfit_matches : list OutfitMatch) (used_items : gset string)
    : run MatcherOutput :=
  match outfits with
  | [] => Returns (OutfitMatches outfit_matches)
  | outfit :: rest =>
      present ← contains "clothing_items" outfit;
      if negb present
      then Returns (ErrorDict "No clothing items in outfit suggestion")
      else
        outfit_name ← getitem outfit "outfit_name";
        clothing_items ← getitem outfit "clothing_items";
        clothing_items ← iter clothing_items;
        st ← match_slots clothing_items wardrobe
               {| st_matched_items := [];
                  st_matched_items_objects := [];
                  st_total_score := 0%float;
                  st_used_items := used_items |};
        match_outfits rest wardrobe
          (outfit_matches ++
             [{| outfit_name := outfit_name;
                 total_score := st_total_score st;
                 matched_items := st_matched_items st |}])%list
          (st_used_items st)
  end.

Definition match_outfit_with_wardrobe (outfit_suggestion : Json)
    (wardrobe : list WardrobeItem) : run MatcherOutput :=
  present ← contains "outfit_recommendations" outfit_suggestion;
  if negb present
  then Returns (ErrorDict "Invalid outfit suggestion format")
  else
    outfits ← getitem outfit_suggestion "outfit_recommendations";
    outfits ← iter outfits;
    match_outfits outfits wardrobe [] ∅.

(** [max(outfit_matches, key=lambda x: x["total_score"])]. *)
Fixpoint max_loop (l : list OutfitMatch) (best : OutfitMatch) : OutfitMatch :=
  match l with
  | [] => best
  | x :: l' =>
      if Num.gt (total_score x) (total_score best) then max_loop l' x
      else max_loop l' best
  end.

Definition highest_score (out : MatcherOutput) : run OutfitMatch :=
  match out with
  | ErrorDict _ => Raises (Exn TypeError)
  | OutfitMatches [] => Raises (Exn ValueError)
  | OutfitMatches (x :: l) => Returns (max_loop l x)
  end.

(** [generate_outfit_recommendation] from the parsed suggestion on. *)
Definition generate_outfit_recommendation (user_id occasion : string)
    (outfit_suggestion : Json) (wardrobe_items : list WardrobeItem)
    : run Recommendation :=
  if negb (truth outfit_suggestion)
  then Raises (Exn (BadRequestError "outfit_suggestion"
                      "Failed to generate outfit suggestion"))
  else
  outfit_matches ← match_outfit_with_wardrobe outfit_suggestion wardrobe_items;
  highest_score_outfit ← highest_score outfit_matches;
  let best_item_ids := mr_item_id <$> matched_items highest_score_outfit in
  let best_items :=
    filter (λ item, Some (item_id item) ∈ best_item_ids) wardrobe_items in
  Returns {| user_id := user_id; occasion := occasion; outfit := best_items |}.

(** *** The shape the matcher reads *)

(** The attributes of a clothing item that the matcher reads. *)
Definition attribute_keys : list string :=
  ["type"; "category"; "color"; "pattern"; "fabric"; "description"].

Definition text_or_null (v : Json) : bool :=
  match v with
  | JNull | JStr _ => true
  | _ => false
  end.

(** A dict whose attributes, where present, are strings or [null]. *)
Definition typed_slot (v : Json) : bool :=
  match v with
  | JDict items =>
      forallb (λ key, match lookup_key key items with
                      | Some x => text_or_null x
                      | None => true
                      end) attribute_keys
  | _ => false
  end.

(** A dict whose name, where present, is a string, and whose clothing
    items, where present, are a list of such slots. *)
Definition typed_outfit (v : Json) : bool :=
  match v with
  | JDict items =>
      match lookup_key "outfit_name" items with
      | Some (JStr _) | None => true
      | Some _ => false
      end
      && match lookup_key "clothing_items" items with
         | Some (JList slots) => forallb typed_slot slots
         | None => true
         | Some _ => false
         end
  | _ => false
  end.

(** A dict whose outfit recommendations, where present, are a list of
    such outfits. *)
Definition typed_suggestion (v : Json) : bool :=
  match v with
  | JDict items =>
      match lookup_key "outfit_recommendations" items with
      | Some (JList outfits) => forallb typed_outfit outfits
      | None => true
      | Some _ => false
      end
  | _ => false
  end.

Definition has_key (key : string) (v : Json) : bool :=
  match v with
  | JDict items => match lookup_key key items with Some _ => true | None => false end
  | _ => false
  end.

(** The clothing items of an outfit, when they are a list. *)
Definition slots_of (v : Json) : list Json :=
  match v with
  | JDict items =>
      match lookup_key "clothing_items" items with
      | Some (JList slots) => slots
      | _ => []
      end
  | _ => []
  end.

(** An outfit the matcher can go through: a name, a list of clothing
    items, and a type for each of them. *)
Definition complete_outfit (v : Json) : bool :=
  typed_outfit v && has_key "outfit_name" v && has_key "clothing_items" v
  && forallb (has_key "type") (slots_of v).


End Dyn.

(** *** The typed suggestion that a JSON value is *)

(** [lift f r]: the outcome [r] of a function above, as an outcome of
    the functions of [Dyn]. *)
Definition lift {A B : Type} (f : A → B) (r : result A) : Dyn.run B :=
  match r with
  | Ok a => Dyn.Returns (f a)
  | Raise e => Dyn.Raises (Dyn.Exn e)
  end.

(** The JSON value [v] is the clothing item [item]: a dict with the same
    attributes. *)
Definition is_slot (v : Dyn.Json) (item : SuggestedItem) : Prop :=
  ∃ items,
    v = Dyn.JDict items
    ∧ ∀ key, key ∈ Dyn.attribute_keys →
        Dyn.lookup_key key items = Dyn.of_text <$> (item !! key).

Definition is_outfit (v : Dyn.Json) (o : Outfit) : Prop :=
  ∃ items,
    v = Dyn.JDict items
    ∧ Dyn.lookup_key "outfit_name" items = Dyn.JStr <$> o_outfit_name o
    ∧ match Dyn.lookup_key "clothing_items" items with
      | None => o_clothing_items o = None
      | Some x =>
          ∃ slots clothing_items,
            x = Dyn.JList slots
            ∧ o_clothing_items o = Some clothing_items
            ∧ Forall2 is_slot slots clothing_items
      end.

Definition is_suggestion (v : Dyn.Json) (s : OutfitSuggestion) : Prop :=
  ∃ items,
    v = Dyn.JDict items
    ∧ Dyn.truth v = negb (empty_suggestion s)
    ∧ match Dyn.lookup_key "outfit_recommendations" items with
      | None => outfit_recommendations s = None
      | Some x =>
          ∃ outfits os,
            x = Dyn.JList outfits
            ∧ outfit_recommendations s = Some os
            ∧ Forall2 is_outfit outfits os
      end.

(** The typed reading of a slot: the attributes that are strings or
    [null]. *)
Definition as_text (v : Dyn.Json) : option (option string) :=
  match v with
  | Dyn.JNull => Some None
  | Dyn.JStr s => Some (Some s)
  | _ => None
  end.

Definition slot_view (v : Dyn.Json) : SuggestedItem :=
  match v with
  | Dyn.JDict items =>
      foldr (λ key m, match Dyn.lookup_key key items ≫= as_text with
                      | Some text => <[key := text]> m
                      | None => m
                      end) ∅ Dyn.attribute_keys
  | _ => ∅
  end.

Definition outfit_view (v : Dyn.Json) : Outfit :=
  match v with
  | Dyn.JDict items =>
      {| o_outfit_name :=
           match Dyn.lookup_key "outfit_name" items with
           | Some (Dyn.JStr name) => Some name
           | _ => None
           end;
         o_clothing_items :=
           match Dyn.lookup_key "clothing_items" items with
           | Some (Dyn.JList slots) => Some (slot_view <$> slots)
           | _ => None
           end |}
  | _ => {| o_outfit_name := None; o_clothing_items := None |}
  end.

Definition suggestion_view (v : Dyn.Json) : OutfitSuggestion :=
  match v with
  | Dyn.JDict items =>
      {| outfit_recommendations :=
           match Dyn.lookup_key "outfit_recommendations" items with
           | Some (Dyn.JList outfits) => Some (outfit_view <$> outfits)
           | _ => None
           end;
         other_keys :=
           filter (λ key, key ≠ "outfit_recommendations") items.*1 |}
  | _ => {| outfit_recommendations := None; other_keys := [] |}
  end.

Definition dyn_suggestion (g : Suggestion) : Dyn.Suggestion :=
  {| Dyn.sg_type := Dyn.of_text (sg_type g);
     Dyn.sg_description := Dyn.of_text (sg_description g);
     Dyn.sg_color := Dyn.of_text (sg_color g);
     Dyn.sg_fabric := Dyn.of_text (sg_fabric g);
     Dyn.sg_pattern := Dyn.of_text (sg_pattern g) |}.

Definition dyn_entry (m : MatchResult) : Dyn.MatchResult :=
  match m with
  | Matched i d t c f s g => Dyn.Matched i d t c f s (dyn_suggestion g)
  | NoMatchFound t g => Dyn.NoMatchFound (Dyn.of_text t) (dyn_suggestion g)
  end.

Definition dyn_match (r : OutfitMatch) : Dyn.OutfitMatch :=
  {| Dyn.outfit_name := Dyn.JStr (outfit_name r);
     Dyn.total_score := total_score r;
     Dyn.matched_items := dyn_entry <$> matched_items r |}.

Definition dyn_output (out : MatcherOutput) : Dyn.MatcherOutput :=
  match out with
  | ErrorDict msg => Dyn.ErrorDict msg
  | OutfitMatches rs => Dyn.OutfitMatches (dyn_match <$> rs)
  end.

Definition dyn_state (st : SlotState) : Dyn.SlotState :=
  {| Dyn.st_matched_items := dyn_entry <$> st_matched_items st;
     Dyn.st_matched_items_objects := st_matched_items_objects st;
     Dyn.st_total_score := st_total_score st;
     Dyn.st_used_items := st_used_items st |}.

(** ** Sample data *)

Module Samples.

Definition mk_item (id ty : string) (col pat fab desc : option string) : WardrobeItem :=
  {| item_id := id; type := ty; color := col; pattern := pat; fabric := fab;
     description := desc; brand := None; image_url := None; created_at := None |}.

Definition mk_slot (kvs : list (string * string)) : SuggestedItem :=
  list_to_map (prod_map id Some <$> kvs).

Definition mk_suggestion (outfits : list Outfit) : OutfitSuggestion :=
  {| outfit_recommendations := Some outfits; other_keys := [] |}.

Definition mk_outfit (name : string) (slots : list SuggestedItem) : Outfit :=
  {| o_outfit_name := Some name; o_clothing_items := Some slots |}.

(** The wardrobe and slot of the specification's first scenario. *)
Definition white_top : WardrobeItem :=
  mk_item "A" "top" (Some "white") (Some "solid") None None.

Definition white_top_slot : SuggestedItem :=
  mk_slot [("type", "top"); ("color", "white"); ("pattern", "solid")].

Definition blue_bottom : WardrobeItem :=
  mk_item "B" "bottom" (Some "blue") None None None.

Definition blue_top_slot : SuggestedItem :=
  mk_slot [("type", "top"); ("color", "blue")].

(** Two shirts that differ in nothing but their id. *)
Definition shirt_a : WardrobeItem :=
  mk_item "A" "top" (Some "white") (Some "solid") None (Some "white cotton shirt").

Definition shirt_b : WardrobeItem :=
  mk_item "B" "top" (Some "white") (Some "solid") None (Some "white cotton shirt").

(** A shirt whose description is close to, but not the same as, theirs. *)
Definition shirt_c : WardrobeItem :=
  mk_item "C" "top" (Some "white") (Some "solid") None (Some "white cotton shirts").

Definition striped_top_slot : SuggestedItem :=
  mk_slot [("type", "top"); ("color", "blue"); ("pattern", "striped")].

(** The specification's third scenario: two ["top"] slots, one top. *)
Definition two_tops : OutfitSuggestion :=
  mk_suggestion [mk_outfit "casual" [white_top_slot; white_top_slot]].

Definition two_tops_match : OutfitMatch :=
  {| outfit_name := "casual";
     total_score := 7;
     matched_items := [matched_entry white_top 7 white_top_slot;
                       no_match_entry white_top_slot] |}.

(** Two slots that the same shirt suits best, and two such shirts; the
    descriptions being equal, the second shirt is penalized by 2 and
    is still the best unused item. *)
Definition two_shirts : OutfitSuggestion :=
  mk_suggestion [mk_outfit "office" [white_top_slot; white_top_slot]].

Definition two_shirts_match : OutfitMatch :=
  {| outfit_name := "office";
     total_score := 12;
     matched_items := [matched_entry shirt_a 7 white_top_slot;
                       matched_entry shirt_b 5 white_top_slot] |}.

(** Two candidate outfits that both ask for the one top of the wardrobe. *)
Definition same_top_twice : OutfitSuggestion :=
  mk_suggestion [mk_outfit "first" [white_top_slot]; mk_outfit "second" [white_top_slot]].

Definition same_top_twice_matches : list OutfitMatch :=
  [ {| outfit_name := "first"; total_score := 7;
       matched_items := [matched_entry white_top 7 white_top_slot] |};
    {| outfit_name := "second"; total_score := 0;
       matched_items := [no_match_entry white_top_slot] |} ].

(** A slot that names its category under ["category"]. *)
Definition category_only_slot : SuggestedItem :=
  mk_slot [("category", "top"); ("color", "white"); ("pattern", "solid")].

(** A second item with the id of [white_top]. *)
Definition white_top_copy : WardrobeItem :=
  mk_item "A" "top" (Some "white") (Some "solid") None (Some "the other one").

(** A suggestion without ["outfit_recommendations"]. *)
Definition keyless_suggestion : OutfitSuggestion :=
  {| outfit_recommendations := None; other_keys := ["outfits"] |}.

(** Parsed suggestions, as [json.loads] builds them. *)
Definition json_white_top : Dyn.Json :=
  Dyn.JDict [("type", Dyn.JStr "Top"); ("color", Dyn.JStr "white");
             ("pattern", Dyn.JStr "solid"); ("fabric", Dyn.JNull);
             ("layers", Dyn.JList [Dyn.JInt 1])].

Definition json_first_outfit : Dyn.Json :=
  Dyn.JDict [("outfit_name", Dyn.JStr "first");
             ("clothing_items", Dyn.JList [json_white_top])].

Definition json_office : list (string * Dyn.Json) :=
  [("occasion", Dyn.JStr "office");
   ("outfit_recommendations", Dyn.JList [json_first_outfit])].

Definition json_keyless : Dyn.Json :=
  Dyn.JDict [("outfits", Dyn.JList [])].

(** An outfit whose clothing items are [null]. *)
Definition json_null_items : list (string * Dyn.Json) :=
  [("outfit_name", Dyn.JStr "second"); ("clothing_items", Dyn.JNull)].

End Samples.

Import Samples.

(** * Properties *)

(** ** The matcher of the standard library on sample strings *)

Example sim_same : get_text_similarity (Some "White Shirt") (Some "white-shirt") = 1.0%float.
Proof. reflexivity. Qed.

Example sim_close : get_text_similarity (Some "abcde") (Some "abcdx") = 0.8%float.
Proof. reflexivity. Qed.

Example sim_abcd_bcde : get_text_similarity (Some "abcd") (Some "bcde") = 0.75%float.
Proof. reflexivity. Qed.

Example sim_disjoint : get_text_similarity (Some "abc") (Some "xyz") = 0%float.
Proof. reflexivity. Qed.

(** ** The work list of [get_matching_blocks] is emptied

    The bound on the iterations of [blocks_loop] is never reached with
    work left: more fuel gives the same blocks. *)

Section MatchingBlocks.

Import SequenceMatcher.

Variables a b : list ascii.

Lemma j2lenget_bound (blo n : nat) (j2len : gmap nat nat) (j : nat) :
  row_ok blo n j2len → (blo ≤ j)%nat →
  (j2lenget j2len j + 1 ≤ n + 1 ∧ j2lenget j2len j + 1 ≤ j + 1 - blo)%nat.
Proof.
  intros Hrow Hj. destruct j as [|j]; cbn; [lia|].
  destruct (j2len !! j) as [k|] eqn:Hk; cbn; [|lia].
  destruct (Hrow j k Hk) as (? & ? & ?). lia.
Qed.

Lemma scan_js_within (alo blo bhi i : nat) (js : list nat)
    (j2len newj2len : gmap nat nat) (best : Match) :
  (alo ≤ i)%nat →
  row_ok blo (i - alo) j2len →
  row_ok blo (i - alo + 1) newj2len →
  within alo (i + 1) blo bhi best →
  row_ok blo (i - alo + 1) (scan_js js i blo bhi j2len newj2len best).1
  ∧ within alo (i + 1) blo bhi (scan_js js i blo bhi j2len newj2len best).2.
Proof.
  intros Hi Hrow. revert newj2len best.
  induction js as [|j js IH]; intros newj2len best Hnew Hbest; cbn [scan_js].
  - done.
  - destruct (Nat.ltb_spec j blo) as [Hlo | Hlo]; [by apply IH|].
    destruct (Nat.leb_spec bhi j) as [Hhi | Hhi]; [done|].
    destruct (j2lenget_bound blo (i - alo) j2len j Hrow Hlo) as [Hk1 Hk2].
    apply IH.
    + intros j' k'. rewrite lookup_insert. case_decide as Heq.
      * intros [= <-]. subst j'. lia.
      * apply Hnew.
    + destruct best as [[bi bj] bk].
      destruct (Nat.ltb_spec bk (j2lenget j2len j + 1)); [|done].
      cbn. lia.
Qed.

Lemma scan_is_within (alo blo bhi : nat) (n i : nat)
    (j2len : gmap nat nat) (best : Match) :
  (alo ≤ i)%nat →
  row_ok blo (i - alo) j2len →
  within alo i blo bhi best →
  within alo (i + n) blo bhi (scan_is a b (seq i n) blo bhi j2len best).
Proof.
  revert i j2len best.
  induction n as [|n IH]; intros i j2len best Hi Hrow Hbest; cbn [seq scan_is].
  - by rewrite Nat.add_0_r.
  - assert (Hbest' : within alo (i + 1) blo bhi best).
    { destruct best as [[bi bj] bk]. cbn in *. lia. }
    assert (Hempty : row_ok blo (i - alo + 1) ∅).
    { intros j k Hk. by rewrite lookup_empty in Hk. }
    pose proof (scan_js_within alo blo bhi i (b2j b (at_ a i)) j2len ∅ best
                  Hi Hrow Hempty Hbest') as [Hrow' Hwithin].
    destruct (scan_js (b2j b (at_ a i)) i blo bhi j2len ∅ best) as [new best'].
    cbn in Hrow', Hwithin.
    replace (i + S n)%nat with (S i + n)%nat by lia. apply IH; [lia | |].
    + by replace (S i - alo)%nat with (i - alo + 1)%nat by lia.
    + by replace (S i) with (i + 1)%nat by lia.
Qed.

Lemma extend_left_within (junk : bool) (alo ahi blo bhi : nat) (m : Match) :
  within alo ahi blo bhi m → within alo ahi blo bhi (extend_left a b junk alo blo m).
Proof.
  destruct m as [[bi bj] bk]. unfold extend_left. revert bj bk.
  induction bi as [|bi IH]; intros bj bk Hm; cbn [extend_left_from]; [done|].
  destruct (Nat.ltb_spec alo (S bi)); [|done].
  destruct (Nat.ltb_spec blo bj); [|done]. cbn [andb].
  destruct (_ && _); [|done]. apply IH. cbn in *. lia.
Qed.

Lemma extend_right_within (junk : bool) (alo ahi blo bhi : nat) (m : Match) :
  within alo ahi blo bhi m → within alo ahi blo bhi (extend_right a b junk ahi bhi m).
Proof.
  destruct m as [[bi bj] bk]. unfold extend_right.
  generalize (ahi - (bi + bk))%nat as n. intros n. revert bk.
  induction n as [|n IH]; intros bk Hm; cbn [extend_right_for]; [done|].
  destruct (Nat.ltb_spec (bi + bk) ahi); [|done].
  destruct (Nat.ltb_spec (bj + bk) bhi); [|done]. cbn [andb].
  destruct (_ && _); [|done]. apply IH. cbn in *. lia.
Qed.

(** The bound on the right extension is never what stops it. *)
Lemma extend_right_for_stops (n : nat) (junk : bool) (ahi bhi besti bestj bestsize : nat) :
  (ahi - (besti + bestsize) ≤ n)%nat →
  extend_right_for a b n junk ahi bhi besti bestj bestsize
    = extend_right a b junk ahi bhi (besti, bestj, bestsize).
Proof.
  unfold extend_right. revert bestsize.
  induction n as [|n IH]; intros bestsize Hn.
  - by replace (ahi - (besti + bestsize))%nat with 0%nat by lia.
  - cbn [extend_right_for].
    destruct (Nat.ltb_spec (besti + bestsize) ahi) as [Hlt | Hge].
    + destruct (ahi - (besti + bestsize))%nat as [|n'] eqn:Hn'; [lia|].
      cbn [extend_right_for].
      destruct (Nat.ltb_spec (besti + bestsize) ahi); [|lia].
      destruct (_ && _ && _ && _); [|done].
      rewrite IH by lia.
      by replace (ahi - (besti + S bestsize))%nat with n' by lia.
    + replace (ahi - (besti + bestsize))%nat with 0%nat by lia. by cbn.
Qed.

Lemma find_longest_match_within (alo ahi blo bhi : nat) :
  (alo ≤ ahi)%nat → (blo ≤ bhi)%nat →
  within alo ahi blo bhi (find_longest_match a b alo ahi blo bhi).
Proof.
  intros Ha Hb. unfold find_longest_match.
  apply extend_right_within, extend_left_within, extend_right_within, extend_left_within.
  replace ahi with (alo + (ahi - alo))%nat at 1 by lia.
  apply scan_is_within; [lia | | cbn; lia].
  intros j k Hk. by rewrite lookup_empty in Hk.
Qed.

Lemma work_cons (alo ahi blo bhi : nat) (queue : list (nat * nat * nat * nat)) :
  work ((alo, ahi, blo, bhi) :: queue)
    = (2 * Nat.min (ahi - alo) (bhi - blo) + 1 + work queue)%nat.
Proof. reflexivity. Qed.

Lemma blocks_loop_enough_fuel (fuel extra : nat) (queue : list (nat * nat * nat * nat))
    (matching_blocks : list Match) :
  Forall window_ok queue → (work queue ≤ fuel)%nat →
  blocks_loop a b (fuel + extra) queue matching_blocks
    = blocks_loop a b fuel queue matching_blocks.
Proof.
  revert queue matching_blocks.
  induction fuel as [|fuel IH]; intros queue matching_blocks Hok Hwork.
  - destruct queue as [|[[[alo ahi] blo] bhi] queue]; [by destruct extra|].
    rewrite work_cons in Hwork. lia.
  - destruct queue as [|[[[alo ahi] blo] bhi] queue]; [done|].
    cbn [Nat.add blocks_loop]. apply Forall_cons in Hok as [[Ha Hb] Hok].
    pose proof (find_longest_match_within alo ahi blo bhi Ha Hb) as Hm.
    destruct (find_longest_match a b alo ahi blo bhi) as [[i j] k].
    cbn in Hm. rewrite work_cons in Hwork.
    destruct (Nat.eqb_spec k 0) as [-> | Hk]; [apply IH; [done | lia]|].
    apply IH.
    + destruct (_ && _), (_ && _); repeat (apply Forall_cons; split); try done;
        cbn; lia.
    + destruct (Nat.ltb_spec alo i), (Nat.ltb_spec blo j),
        (Nat.ltb_spec (i + k) ahi), (Nat.ltb_spec (j + k) bhi); cbn [andb];
        rewrite ?work_cons; lia.
Qed.

(** The blocks [get_matching_blocks] returns are those of the loop run
    until its work list is empty. *)
Lemma get_matching_blocks_complete (extra : nat) :
  blocks_loop a b (2 * Nat.min (length a) (length b) + 1 + extra)
    [(0%nat, length a, 0%nat, length b)] []
  = get_matching_blocks a b.
Proof.
  unfold get_matching_blocks. apply blocks_loop_enough_fuel.
  - constructor; [cbn; lia | constructor].
  - cbn. lia.
Qed.

End MatchingBlocks.

(** ** The item match scorer *)

Example scenario_white_top :
  get_match_score white_top_slot white_top = 7%float.
Proof. reflexivity. Qed.

Example scenario_blue_bottom :
  get_match_score blue_top_slot blue_bottom = (-1)%float.
Proof. reflexivity. Qed.

Lemma type_matches_false (summary_item : SuggestedItem) (wardrobe_item : WardrobeItem) :
  normalize (Some (type wardrobe_item)) ≠ normalize (summary_type summary_item) →
  type_matches summary_item wardrobe_item = false.
Proof.
  intros Hne. unfold type_matches.
  destruct (String.eqb_spec (normalize (Some (type wardrobe_item)))
                            (normalize (summary_type summary_item))); congruence.
Qed.

(** C4. Whenever the normalized type of the wardrobe item differs from
    the normalized type (or category) of the suggested item, the scorer
    returns exactly -1, whatever the color, pattern, fabric and
    description of the two items are. *)
Theorem get_match_score_type_gate
    (summary_item : SuggestedItem) (wardrobe_item : WardrobeItem) :
  normalize (Some (type wardrobe_item)) ≠ normalize (summary_type summary_item) →
  get_match_score summary_item wardrobe_item = (-1)%float.
Proof.
  intros Hne. unfold get_match_score.
  by rewrite (type_matches_false _ _ Hne).
Qed.

Lemma get_match_score_type_gate_witness :
  get_match_score blue_top_slot blue_bottom = (-1)%float.
Proof.
  apply (get_match_score_type_gate blue_top_slot blue_bottom).
  vm_compute. discriminate.
Defined.

Lemma get_text_similarity_falsy (text1 text2 : option string) :
  truthy text1 = false ∨ truthy text2 = false →
  get_text_similarity text1 text2 = 0%float.
Proof.
  intros [H | H]; unfold get_text_similarity; rewrite H; simpl; [done|].
  by destruct (truthy text1).
Qed.

(** C9. For a pair whose types match: when both color values normalize
    to the empty string (absent, [None], empty or without any letter or
    digit) the +2 color bonus is added; likewise the +4 pattern bonus when
    both pattern values do; and a pair that specifies no color, pattern,
    fabric or description scores 7. *)
Theorem empty_attributes_earn_bonus
    (summary_item : SuggestedItem) (wardrobe_item : WardrobeItem)
    (Htype : type_matches summary_item wardrobe_item = true) :
  (normalize (color wardrobe_item) = "" →
   normalize (get_or_empty summary_item "color") = "" →
   get_match_score summary_item wardrobe_item =
     add_description summary_item wardrobe_item
       (add_fabric summary_item wardrobe_item
          (add_pattern summary_item wardrobe_item (1 + 2)%float)))
  ∧ (normalize (pattern wardrobe_item) = "" →
     normalize (get_or_empty summary_item "pattern") = "" →
     get_match_score summary_item wardrobe_item =
       add_description summary_item wardrobe_item
         (add_fabric summary_item wardrobe_item
            (add_color summary_item wardrobe_item 1 + 4)%float))
  ∧ (normalize (color wardrobe_item) = "" →
     normalize (get_or_empty summary_item "color") = "" →
     normalize (pattern wardrobe_item) = "" →
     normalize (get_or_empty summary_item "pattern") = "" →
     normalize (fabric wardrobe_item) = ""
       ∨ normalize (get_or_empty summary_item "fabric") = "" →
     truthy (description wardrobe_item) = false
       ∨ truthy (get_or_empty summary_item "description") = false →
     get_match_score summary_item wardrobe_item = 7%float).
Proof.
  unfold get_match_score. rewrite Htype. simpl negb. cbv iota.
  split; [|split].
  - intros Hw Hs. unfold add_color at 1. by rewrite Hw, Hs.
  - intros Hw Hs. unfold add_pattern at 1. by rewrite Hw, Hs.
  - intros Hcw Hcs Hpw Hps Hf Hd.
    unfold add_color, add_pattern, add_fabric, add_description.
    rewrite Hcw, Hcs, Hpw, Hps, (get_text_similarity_falsy _ _ Hd). simpl.
    destruct Hf as [-> | ->]; simpl; [done|].
    by rewrite andb_false_r.
Qed.

Lemma empty_attributes_earn_bonus_witness :
  get_match_score (mk_slot [("type", "top")])
                  (mk_item "A" "top" None None None None) = 7%float.
Proof.
  apply (empty_attributes_earn_bonus (mk_slot [("type", "top")])
           (mk_item "A" "top" None None None None));
    solve [reflexivity | left; reflexivity].
Defined.

(** ** The text similarity scorer *)

Lemma truthy_some (t : string) : t ≠ "" → truthy (Some t) = true.
Proof. by destruct t. Qed.

Lemma ratio_empty_empty : SequenceMatcher.ratio [] [] = 1.0%float.
Proof. reflexivity. Qed.

(** C10. Two non-empty strings that normalization empties (punctuation
    only, say) have similarity 1.0, the ratio of two empty sequences, and
    as descriptions they earn the full 1.5 bonus; the similarity is 0 by
    the guard whenever an input is empty or absent before normalization,
    and for two non-empty inputs it is the ratio of their normal forms. *)
Theorem get_text_similarity_stripped_to_empty (text1 text2 : string)
    (Hne1 : text1 ≠ "") (Hne2 : text2 ≠ "")
    (Hn1 : normalize (Some text1) = "") (Hn2 : normalize (Some text2) = "") :
  get_text_similarity (Some text1) (Some text2) = 1.0%float
  ∧ (∀ (summary_item : SuggestedItem) (wardrobe_item : WardrobeItem) (score : float),
       description wardrobe_item = Some text1 →
       get_or_empty summary_item "description" = Some text2 →
       add_description summary_item wardrobe_item score = (score + 1.5)%float)
  ∧ (∀ u1 u2 : option string,
       truthy u1 = false ∨ truthy u2 = false → get_text_similarity u1 u2 = 0%float)
  ∧ (∀ u1 u2 : option string,
       truthy u1 = true → truthy u2 = true →
       get_text_similarity u1 u2 =
         SequenceMatcher.ratio (list_ascii_of_string (normalize u1))
                               (list_ascii_of_string (normalize u2))).
Proof.
  assert (Hsim : get_text_similarity (Some text1) (Some text2) = 1.0%float).
  { unfold get_text_similarity.
    rewrite (truthy_some _ Hne1), (truthy_some _ Hne2), Hn1, Hn2. reflexivity. }
  repeat split.
  - exact Hsim.
  - intros summary_item wardrobe_item score Hw Hs.
    unfold add_description. rewrite Hw, Hs, Hsim. reflexivity.
  - apply get_text_similarity_falsy.
  - intros u1 u2 H1 H2. unfold get_text_similarity. by rewrite H1, H2.
Qed.

Lemma get_text_similarity_stripped_to_empty_witness :
  get_text_similarity (Some "!!!") (Some "???") = 1.0%float.
Proof.
  apply (get_text_similarity_stripped_to_empty "!!!" "???");
    solve [discriminate | reflexivity].
Defined.

Example punctuation_descriptions_score :
  get_match_score (mk_slot [("type", "top"); ("description", "???")])
                  (mk_item "A" "top" None None None (Some "!!!")) = 8.5%float.
Proof. reflexivity. Qed.

(** ** The assignment engine: [find_best_match] *)

(** The scorer resolves the category of a slot that has no ["type"]. *)
Example category_only_score :
  get_match_score category_only_slot white_top = 7%float.
Proof. reflexivity. Qed.

(** C8. The code does not do what the claim says: for a slot that has a
    ["category"] but no ["type"], the scorer resolves the category from
    ["category"], but the engine raises [KeyError] as soon as the
    wardrobe holds an item that is not used yet. *)
Theorem find_best_match_category_only_raises (suggested_item : SuggestedItem)
    (wardrobe_items : list WardrobeItem) (used_items : gset string)
    (matching_set_items : list WardrobeItem) :
  suggested_item !! "type" = None →
  (∃ item, item ∈ wardrobe_items ∧ item_id item ∉ used_items) →
  summary_type suggested_item = get_or_empty suggested_item "category"
  ∧ find_best_match suggested_item wardrobe_items used_items matching_set_items
    = Raise (KeyError "type").
Proof.
  intros Hty Hfree. split; [unfold summary_type; by rewrite Hty|].
  unfold find_best_match. generalize (@None WardrobeItem) (-1)%float.
  induction wardrobe_items as [|item rest IH]; intros best_item highest;
    destruct Hfree as (x & Hin & Hfree).
  - by apply elem_of_nil in Hin.
  - cbn [best_match_loop].
    destruct (decide (item_id item ∈ used_items)) as [Hused | Hused].
    + apply IH. exists x. split; [|done].
      apply elem_of_cons in Hin as [-> | Hin]; [done | exact Hin].
    + by rewrite Hty.
Qed.

Lemma find_best_match_category_only_raises_witness :
  find_best_match category_only_slot [white_top] ∅ [] = Raise (KeyError "type").
Proof.
  apply (find_best_match_category_only_raises category_only_slot [white_top] ∅ []).
  - reflexivity.
  - exists white_top. split; [apply list_elem_of_here | apply not_elem_of_empty].
Defined.

(** The same at the level of the matcher: the call ends with the
    exception. *)
Example category_only_outfit_raises :
  match_outfit_with_wardrobe (mk_suggestion [mk_outfit "casual" [category_only_slot]])
    [white_top]
  = Raise (KeyError "type").
Proof. reflexivity. Qed.

(** The case of an item the loop passes over, for whatever reason the
    context gives: the result is that of the rest of the wardrobe. *)
Ltac loop_passes_over IH best_item highest :=
  let b := fresh "b" in
  let h := fresh "h" in
  let Heq := fresh "Heq" in
  let Hnone := fresh "Hnone" in
  let Hsame := fresh "Hsame" in
  let Hsome := fresh "Hsome" in
  destruct (IH best_item highest) as (b & h & Heq & Hnone & Hsame & Hsome);
  exists b, h; split; [exact Heq|]; split; [|split; [exact Hsame|]];
  [ rewrite Hnone; split; intros [Hb Hall]; (split; [exact Hb|]);
    [ intros x Hin Hc;
      destruct (proj1 (elem_of_cons _ _ _) Hin) as [-> | Hin'];
      [ solve [assumption | by destruct Hc] | by apply Hall ]
    | intros x Hin; apply Hall; by apply list_elem_of_further ]
  | intros x Hx; destruct (Hsome x Hx) as [? | (Hin & ? & ?)]; [by left|];
    right; split; [by apply list_elem_of_further | done] ].

Section BestMatchLoop.

Variables (suggested_item : SuggestedItem) (suggested_type : option string).
Variables (used_items : gset string) (matching_set_items : list WardrobeItem).
Hypothesis Htype : suggested_item !! "type" = Some suggested_type.

(** What the loop returns from a state [(best_item, highest)]: it keeps
    [None] exactly when it started from [None] and no candidate beats
    [highest]; an item it returns is the one it started from or a
    candidate, with its adjusted score. *)
Lemma best_match_loop_spec (items : list WardrobeItem)
    (best_item : option WardrobeItem) (highest : float) :
  ∃ best' highest',
    best_match_loop suggested_item items used_items matching_set_items
      best_item highest = Ok (best', highest')
    ∧ (best' = None ↔
         best_item = None
         ∧ ∀ item, item ∈ items → candidate suggested_type used_items item →
             Num.gt (adjusted_score suggested_item item matching_set_items) highest = false)
    ∧ (best' = None → highest' = highest)
    ∧ (∀ item, best' = Some item →
         (best_item = Some item ∧ highest' = highest)
         ∨ (item ∈ items ∧ candidate suggested_type used_items item
            ∧ highest' = adjusted_score suggested_item item matching_set_items)).
Proof.
  revert best_item highest.
  induction items as [|item rest IH]; intros best_item highest.
  - exists best_item, highest. simpl. split; [done|]. split; [|split; [done|]].
    + split; [|tauto]. intros Hb. split; [exact Hb|].
      intros item Hin. by apply elem_of_nil in Hin.
    + intros item ->. by left.
  - cbn [best_match_loop].
    destruct (decide (item_id item ∈ used_items)) as [Hused | Hfree];
      [loop_passes_over IH best_item highest|].
    rewrite Htype.
    destruct (String.eqb_spec (normalize (Some (type item)))
                (normalize suggested_type)) as [Hsame_type | Hother];
      [|loop_passes_over IH best_item highest].
    assert (Hcand : candidate suggested_type used_items item) by done.
    destruct (Num.gt (adjusted_score suggested_item item matching_set_items) highest)
      eqn:Hgt; [|loop_passes_over IH best_item highest].
    destruct (IH (Some item) (adjusted_score suggested_item item matching_set_items))
      as (b & h & Heq & Hnone & Hsame & Hsome).
    exists b, h. split; [exact Heq|]. split; [|split].
    + split.
      * intros Hb. apply Hnone in Hb as [Hb _]. discriminate.
      * intros [_ Hall]. specialize (Hall item (list_elem_of_here _ _) Hcand).
        congruence.
    + intros Hb. apply Hnone in Hb as [Hb _]. discriminate.
    + intros x Hx. right.
      destruct (Hsome x Hx) as [[Hb Hh] | (Hin & Hc & Hh)].
      * injection Hb as <-. split; [apply list_elem_of_here | done].
      * split; [by apply list_elem_of_further | done].
Qed.

End BestMatchLoop.

Lemma best_match_loop_fresh (suggested_item : SuggestedItem) (items : list WardrobeItem)
    (used_items : gset string) (matching_set_items : list WardrobeItem)
    (best_item : option WardrobeItem) (highest : float)
    (found : WardrobeItem) (score : float) :
  best_match_loop suggested_item items used_items matching_set_items best_item highest
    = Ok (Some found, score) →
  best_item = Some found ∨ (found ∈ items ∧ item_id found ∉ used_items).
Proof.
  revert best_item highest.
  induction items as [|item rest IH]; intros best_item highest; cbn [best_match_loop].
  - intros [= -> _]. by left.
  - destruct (decide (item_id item ∈ used_items)) as [Hused | Hfree].
    { intros H. destruct (IH _ _ H) as [? | [? ?]]; [by left|].
      right. split; [by apply list_elem_of_further | done]. }
    destruct (suggested_item !! "type") as [suggested_type|]; [|discriminate].
    destruct (String.eqb _ _).
    2:{ intros H. destruct (IH _ _ H) as [? | [? ?]]; [by left|].
        right. split; [by apply list_elem_of_further | done]. }
    destruct (Num.gt _ _); intros H; destruct (IH _ _ H) as [Hb | [? ?]].
    + injection Hb as <-. right. split; [apply list_elem_of_here | done].
    + right. split; [by apply list_elem_of_further | done].
    + by left.
    + right. split; [by apply list_elem_of_further | done].
Qed.

Lemma find_best_match_fresh (suggested_item : SuggestedItem)
    (wardrobe_items : list WardrobeItem) (used_items : gset string)
    (matching_set_items : list WardrobeItem) (found : WardrobeItem) (score : float) :
  find_best_match suggested_item wardrobe_items used_items matching_set_items
    = Ok (Some found, score) →
  found ∈ wardrobe_items ∧ item_id found ∉ used_items.
Proof.
  intros H. by destruct (best_match_loop_fresh _ _ _ _ _ _ _ _ H).
Qed.

(** ** The matcher: [match_outfit_with_wardrobe] *)

Lemma match_slots_spec (clothing_items : list SuggestedItem)
    (wardrobe : list WardrobeItem) (st st' : SlotState) :
  match_slots clothing_items wardrobe st = Ok st' →
  ∃ new : list MatchResult,
    st_matched_items st' = (st_matched_items st ++ new)%list
    ∧ length new = length clothing_items
    ∧ NoDup (assigned_ids new)
    ∧ (∀ i, i ∈ assigned_ids new → i ∉ st_used_items st)
    ∧ st_used_items st' = st_used_items st ∪ list_to_set (assigned_ids new)
    ∧ st_total_score st' = sum_from (st_total_score st) (matched_scores new).
Proof.
  revert st. induction clothing_items as [|item rest IH]; intros st; cbn [match_slots].
  - intros [= <-]. exists []. rewrite app_nil_r. cbn.
    repeat split; [constructor | | by rewrite (right_id_L ∅ (∪))].
    intros i Hi. by apply elem_of_nil in Hi.
  - destruct (find_best_match item wardrobe (st_used_items st)
                (st_matched_items_objects st)) as [[[found|] score]|e] eqn:Hfind;
      cbn; [| |discriminate].
    + intros H. apply IH in H as (new & Hitems & Hlen & Hnd & Hfresh & Hused & Htot).
      cbn in *. apply find_best_match_fresh in Hfind as [_ Hfound].
      exists (matched_entry found score item :: new).
      rewrite Hitems, <- app_assoc. cbn.
      split; [done|]. split; [by rewrite Hlen|]. split; [|split; [|split]].
      * constructor; [|exact Hnd]. intros Hin. apply Hfresh in Hin.
        apply Hin, elem_of_union_r. by apply elem_of_singleton.
      * intros i Hi. apply elem_of_cons in Hi as [-> | Hi]; [done|].
        apply Hfresh in Hi. intros Hu. by apply Hi, elem_of_union_l.
      * rewrite Hused. by rewrite (assoc_L (∪)).
      * exact Htot.
    + intros H. apply IH in H as (new & Hitems & Hlen & Hnd & Hfresh & Hused & Htot).
      cbn in *. exists (no_match_entry item :: new).
      rewrite Hitems, <- app_assoc. cbn.
      split; [done|]. split; [by rewrite Hlen|]. done.
Qed.

Lemma match_outfits_spec (outfits : list Outfit) (wardrobe : list WardrobeItem)
    (acc : list OutfitMatch) (used_items : gset string) (rs : list OutfitMatch) :
  match_outfits outfits wardrobe acc used_items = Ok (OutfitMatches rs) →
  ∃ new : list OutfitMatch,
    rs = (acc ++ new)%list
    ∧ length new = length outfits
    ∧ NoDup (all_assigned_ids new)
    ∧ (∀ i, i ∈ all_assigned_ids new → i ∉ used_items)
    ∧ Forall (λ r, total_score r = sum_from 0 (matched_scores (matched_items r))) new.
Proof.
  revert acc used_items.
  induction outfits as [|outfit rest IH]; intros acc used_items; cbn [match_outfits].
  - intros [= <-]. exists []. rewrite app_nil_r.
    repeat split; [constructor | | constructor].
    intros i Hi. by apply elem_of_nil in Hi.
  - destruct (o_clothing_items outfit) as [clothing_items|]; [|discriminate].
    destruct (o_outfit_name outfit) as [name|]; [|discriminate].
    destruct (match_slots clothing_items wardrobe _) as [st|e] eqn:Hslots;
      cbn; [|discriminate].
    apply match_slots_spec in Hslots
      as (slots & Hitems & _ & Hnd & Hfresh & Hused & Htot). cbn in *.
    intros H. apply IH in H as (new & -> & Hlen & Hnd' & Hfresh' & Hall).
    eexists (_ :: new). rewrite <- app_assoc. cbn.
    split; [reflexivity|]. split; [by rewrite Hlen|].
    unfold all_assigned_ids in *. cbn. rewrite Hitems.
    split; [|split].
    + apply NoDup_app. split; [exact Hnd|]. split; [|exact Hnd'].
      intros i Hi Hi'. apply Hfresh' in Hi'. rewrite Hused in Hi'.
      apply Hi'. apply elem_of_union_r. by apply elem_of_list_to_set.
    + intros i Hi. apply elem_of_app in Hi as [Hi | Hi]; [by apply Hfresh|].
      apply Hfresh' in Hi. rewrite Hused in Hi.
      intros Hu. by apply Hi, elem_of_union_l.
    + constructor; [exact Htot | exact Hall].
Qed.

(** C5, as the claim states it, fails: [shirt_b] is an unused candidate
    of the slot's type, its adjusted score is -1 (base score 1, penalty 2
    for repeating the description of the shirt already in the outfit),
    and the slot gets no item. *)
Lemma find_best_match_rejects_candidate :
  shirt_b ∈ [shirt_a; shirt_b]
  ∧ candidate (Some "top") {["A"]} shirt_b
  ∧ adjusted_score striped_top_slot shirt_b [shirt_a] = (-1)%float
  ∧ find_best_match striped_top_slot [shirt_a; shirt_b] {["A"]} [shirt_a]
      = Ok (None, (-1)%float).
Proof.
  split; [apply list_elem_of_further, list_elem_of_here|].
  split; [|split; reflexivity].
  split; [|reflexivity].
  intros H. apply elem_of_singleton in H. discriminate.
Qed.

(** The same at the level of the matcher: the second slot is left
    unmatched although [shirt_b] is in the wardrobe and unused. *)
Example second_shirt_left_unmatched :
  match_outfit_with_wardrobe
    (mk_suggestion [mk_outfit "work" [white_top_slot; striped_top_slot]])
    [shirt_a; shirt_b]
  = Ok (OutfitMatches
          [ {| outfit_name := "work"; total_score := 7;
               matched_items :=
                 [matched_entry shirt_a 7 white_top_slot;
                  no_match_entry striped_top_slot] |} ]).
Proof. vm_compute. reflexivity. Qed.

(** A negative adjusted score above -1 is accepted. *)
Example negative_score_accepted :
  ∃ score,
    find_best_match striped_top_slot [shirt_a; shirt_c] {["A"]} [shirt_a]
      = Ok (Some shirt_c, score)
    ∧ (score <? 0)%float = true
    ∧ Num.gt score (-1) = true.
Proof. eexists. split; [vm_compute; reflexivity|]. split; reflexivity. Qed.

(** C5 (amended). For a slot that has a ["type"], the engine returns
    without raising; it assigns no item exactly when no unused same-type
    item has an adjusted score strictly above -1, and then the score it
    returns is -1; an item it assigns is an unused same-type item of the
    wardrobe, and the score returned is that item's adjusted score,
    whatever its sign. *)
Theorem find_best_match_threshold (suggested_item : SuggestedItem)
    (suggested_type : option string) (wardrobe_items : list WardrobeItem)
    (used_items : gset string) (matching_set_items : list WardrobeItem)
    (Htype : suggested_item !! "type" = Some suggested_type) :
  ∃ best_item score,
    find_best_match suggested_item wardrobe_items used_items matching_set_items
      = Ok (best_item, score)
    ∧ (best_item = None ↔
         ∀ item, item ∈ wardrobe_items → candidate suggested_type used_items item →
           Num.gt (adjusted_score suggested_item item matching_set_items) (-1) = false)
    ∧ (best_item = None → score = (-1)%float)
    ∧ (∀ item, best_item = Some item →
         item ∈ wardrobe_items ∧ candidate suggested_type used_items item
         ∧ score = adjusted_score suggested_item item matching_set_items).
Proof.
  destruct (best_match_loop_spec suggested_item suggested_type used_items
              matching_set_items Htype wardrobe_items None (-1)%float)
    as (b & h & Heq & Hnone & Hsame & Hsome).
  exists b, h. split; [exact Heq|]. split; [|split; [exact Hsame|]].
  - rewrite Hnone. tauto.
  - intros item Hb. by destruct (Hsome item Hb) as [[? _] | ?].
Qed.

Lemma find_best_match_threshold_witness :
  ∃ best_item score,
    find_best_match striped_top_slot [shirt_a; shirt_b] {["A"]} [shirt_a]
      = Ok (best_item, score)
    ∧ (best_item = None ↔
         ∀ item, item ∈ [shirt_a; shirt_b] → candidate (Some "top") {["A"]} item →
           Num.gt (adjusted_score striped_top_slot item [shirt_a]) (-1) = false)
    ∧ (best_item = None → score = (-1)%float)
    ∧ (∀ item, best_item = Some item →
         item ∈ [shirt_a; shirt_b] ∧ candidate (Some "top") {["A"]} item
         ∧ score = adjusted_score striped_top_slot item [shirt_a]).
Proof.
  apply (find_best_match_threshold striped_top_slot (Some "top") [shirt_a; shirt_b]
           {["A"]} [shirt_a]).
  reflexivity.
Defined.

(** ** Facts about lists used below *)

Section ListFacts.

Context {A B : Type}.

Lemma NoDup_omap_lookup (f : A → option B) (l : list A) (i j : nat) (a b : A) (x : B) :
  NoDup (omap f l) →
  l !! i = Some a → l !! j = Some b → f a = Some x → f b = Some x → i = j.
Proof.
  revert i j. induction l as [|c l IH]; intros i j Hnd Hi Hj Ha Hb; [done|].
  assert (Hin : ∀ k d, l !! k = Some d → f d = Some x → x ∈ omap f l).
  { intros k d Hk Hd. apply list_elem_of_omap. exists d.
    split; [by eapply list_elem_of_lookup_2 | done]. }
  cbn in Hnd. destruct i as [|i], j as [|j]; cbn in Hi, Hj.
  - done.
  - injection Hi as ->. rewrite Ha in Hnd. apply NoDup_cons in Hnd as [Hx _].
    destruct Hx. by eapply Hin.
  - injection Hj as ->. rewrite Hb in Hnd. apply NoDup_cons in Hnd as [Hx _].
    destruct Hx. by eapply Hin.
  - f_equal. apply IH; try done.
    destruct (f c); [by apply NoDup_cons in Hnd as [_ ?] | done].
Qed.

Lemma NoDup_bind_each (f : A → list B) (l : list A) (a : A) :
  NoDup (l ≫= f) → a ∈ l → NoDup (f a).
Proof.
  induction l as [|c l IH]; intros Hnd Hin; [by apply elem_of_nil in Hin|].
  cbn in Hnd. apply NoDup_app in Hnd as (Hc & _ & Hl).
  apply elem_of_cons in Hin as [-> | Hin]; [done | by apply IH].
Qed.

Lemma NoDup_bind_lt (f : A → list B) (l : list A) (i j : nat) (a b : A) (x : B) :
  NoDup (l ≫= f) → (i < j)%nat →
  l !! i = Some a → l !! j = Some b → x ∈ f a → x ∉ f b.
Proof.
  revert i j. induction l as [|c l IH]; intros i j Hnd Hlt Hi Hj Ha Hb; [done|].
  cbn in Hnd. apply NoDup_app in Hnd as (_ & Hdisj & Hl).
  destruct j as [|j]; [lia|]. cbn in Hj. destruct i as [|i]; cbn in Hi.
  - injection Hi as ->. apply (Hdisj x Ha).
    apply list_elem_of_bind. exists b.
    split; [done | by eapply list_elem_of_lookup_2].
  - apply (IH i j); try done. lia.
Qed.

Lemma NoDup_bind_disjoint (f : A → list B) (l : list A) (i j : nat) (a b : A) (x : B) :
  NoDup (l ≫= f) → i ≠ j →
  l !! i = Some a → l !! j = Some b → x ∈ f a → x ∉ f b.
Proof.
  intros Hnd Hne Hi Hj Ha Hb.
  destruct (Nat.lt_total i j) as [Hlt | [-> | Hlt]]; [|done|].
  - by apply (NoDup_bind_lt f l i j a b x).
  - by apply (NoDup_bind_lt f l j i b a x).
Qed.

End ListFacts.

Lemma matcher_ids_NoDup (outfit_suggestion : OutfitSuggestion)
    (wardrobe : list WardrobeItem) (rs : list OutfitMatch) :
  match_outfit_with_wardrobe outfit_suggestion wardrobe = Ok (OutfitMatches rs) →
  NoDup (all_assigned_ids rs).
Proof.
  unfold match_outfit_with_wardrobe.
  destruct (outfit_recommendations outfit_suggestion) as [outfits|]; [|discriminate].
  intros H. by apply match_outfits_spec in H as (new & -> & _ & Hnd & _).
Qed.

(** C3. In every outfit match the matcher returns, a wardrobe item id is
    the ["item_id"] of at most one slot result: two different slots of
    one outfit are never given the same item. *)
Theorem item_id_unique_within_outfit (outfit_suggestion : OutfitSuggestion)
    (wardrobe : list WardrobeItem) (rs : list OutfitMatch) (r : OutfitMatch)
    (i j : nat) (m1 m2 : MatchResult) (id : string) :
  match_outfit_with_wardrobe outfit_suggestion wardrobe = Ok (OutfitMatches rs) →
  r ∈ rs →
  matched_items r !! i = Some m1 → matched_items r !! j = Some m2 → i ≠ j →
  mr_item_id m1 = Some id →
  mr_item_id m2 ≠ Some id.
Proof.
  intros Hrun Hr Hi Hj Hne H1 H2. apply Hne. apply matcher_ids_NoDup in Hrun.
  apply (NoDup_omap_lookup mr_item_id (matched_items r) i j m1 m2 id); try done.
  exact (NoDup_bind_each (λ r, assigned_ids (matched_items r)) rs r Hrun Hr).
Qed.

Lemma item_id_unique_within_outfit_witness :
  mr_item_id (matched_entry shirt_b 5 white_top_slot) ≠ Some "A".
Proof.
  apply (item_id_unique_within_outfit two_shirts [shirt_a; shirt_b] [two_shirts_match]
           two_shirts_match 0 1
           (matched_entry shirt_a 7 white_top_slot)
           (matched_entry shirt_b 5 white_top_slot) "A");
    solve [reflexivity | apply list_elem_of_here | lia].
Defined.

(** C2, as the claim states it, fails: the single top is the best match
    of the slot of either outfit when no item is used, the first outfit
    is given it, and the second outfit is left without a match. *)
Lemma used_items_shared_across_outfits :
  find_best_match white_top_slot [white_top] ∅ []
    = Ok (Some white_top, 7%float)
  ∧ match_outfit_with_wardrobe same_top_twice [white_top]
    = Ok (OutfitMatches same_top_twice_matches)
  ∧ all_assigned_ids same_top_twice_matches = ["A"].
Proof. repeat split. Qed.

(** C2 (amended). The set of used items is created once per call and
    kept from one candidate outfit to the next: an item id assigned in one
    outfit match is assigned in no other outfit match of the same call. *)
Theorem item_id_unique_across_outfits (outfit_suggestion : OutfitSuggestion)
    (wardrobe : list WardrobeItem) (rs : list OutfitMatch)
    (i j : nat) (r1 r2 : OutfitMatch) (id : string) :
  match_outfit_with_wardrobe outfit_suggestion wardrobe = Ok (OutfitMatches rs) →
  rs !! i = Some r1 → rs !! j = Some r2 → i ≠ j →
  id ∈ assigned_ids (matched_items r1) →
  id ∉ assigned_ids (matched_items r2).
Proof.
  intros Hrun Hi Hj Hne. apply matcher_ids_NoDup in Hrun.
  by apply (NoDup_bind_disjoint (λ r, assigned_ids (matched_items r)) rs i j).
Qed.

Lemma item_id_unique_across_outfits_witness :
  "A" ∉ assigned_ids [no_match_entry white_top_slot].
Proof.
  apply (item_id_unique_across_outfits same_top_twice [white_top]
           same_top_twice_matches 0 1
           {| outfit_name := "first"; total_score := 7;
              matched_items :=
                [matched_entry white_top 7 white_top_slot] |}
           {| outfit_name := "second"; total_score := 0;
              matched_items := [no_match_entry white_top_slot] |} "A");
    solve [reflexivity | lia | apply list_elem_of_here].
Defined.

Lemma float_7_neq_6 : 7%float ≠ 6%float.
Proof. intros H. apply (f_equal (λ x, PrimFloat.eqb x 7)) in H. discriminate H. Qed.

(** C1, as the claim states it, fails on the specification's own
    scenario: with two ["top"] slots and one top the slot scores are 7
    and -1, and [total_score] is 7, not their sum 6. *)
Lemma total_score_omits_unmatched_slots :
  match_outfit_with_wardrobe two_tops [white_top]
    = Ok (OutfitMatches [two_tops_match])
  ∧ mr_score <$> matched_items two_tops_match = [7%float; (-1)%float]
  ∧ total_score two_tops_match = 7%float
  ∧ sum_from 0 (mr_score <$> matched_items two_tops_match) = 6%float
  ∧ total_score two_tops_match ≠ sum_from 0 (mr_score <$> matched_items two_tops_match).
Proof. repeat split. exact float_7_neq_6. Qed.

(** C1 (amended). In every outfit match the matcher returns,
    [total_score] is the sum, from 0 and in slot order, of the scores of
    the matched slots alone; a slot without a match adds nothing. *)
Theorem total_score_sums_matched_slots (outfit_suggestion : OutfitSuggestion)
    (wardrobe : list WardrobeItem) (rs : list OutfitMatch) (r : OutfitMatch) :
  match_outfit_with_wardrobe outfit_suggestion wardrobe = Ok (OutfitMatches rs) →
  r ∈ rs →
  total_score r = sum_from 0 (matched_scores (matched_items r)).
Proof.
  unfold match_outfit_with_wardrobe.
  destruct (outfit_recommendations outfit_suggestion) as [outfits|]; [|discriminate].
  intros H Hr. apply match_outfits_spec in H as (new & -> & _ & _ & _ & Hall).
  rewrite Forall_forall in Hall. by apply Hall.
Qed.

Lemma total_score_sums_matched_slots_witness :
  total_score two_tops_match = sum_from 0 (matched_scores (matched_items two_tops_match)).
Proof.
  apply (total_score_sums_matched_slots two_tops [white_top] [two_tops_match]);
    [reflexivity | apply list_elem_of_here].
Defined.

(** ** Malformed and degenerate suggestions *)

Lemma match_slots_total (clothing_items : list SuggestedItem)
    (wardrobe : list WardrobeItem) (st : SlotState) :
  Forall well_formed_slot clothing_items →
  ∃ st', match_slots clothing_items wardrobe st = Ok st'.
Proof.
  intros Hall. revert st.
  induction Hall as [|item rest [ty Hty] _ IH]; intros st; cbn [match_slots].
  - by exists st.
  - unfold find_best_match.
    destruct (best_match_loop_spec item ty (st_used_items st)
                (st_matched_items_objects st) Hty wardrobe None (-1)%float)
      as (b & sc & -> & _).
    cbn. destruct b; apply IH.
Qed.

Lemma match_outfits_total (outfits : list Outfit) (wardrobe : list WardrobeItem)
    (acc : list OutfitMatch) (used_items : gset string) :
  Forall well_formed_outfit outfits →
  ∃ rs, match_outfits outfits wardrobe acc used_items = Ok (OutfitMatches rs)
        ∧ length rs = (length acc + length outfits)%nat.
Proof.
  intros Hall. revert acc used_items.
  induction Hall as [|o rest ([name Hname] & items & Hitems & Hslots) _ IH];
    intros acc used_items; cbn [match_outfits].
  - exists acc. split; [done | cbn; lia].
  - rewrite Hitems, Hname.
    destruct (match_slots_total items wardrobe
                {| st_matched_items := []; st_matched_items_objects := [];
                   st_total_score := 0; st_used_items := used_items |} Hslots)
      as [st ->].
    cbn. destruct (IH (acc ++ [{| outfit_name := name;
                                  total_score := st_total_score st;
                                  matched_items := st_matched_items st |}])%list
                      (st_used_items st)) as (rs & -> & Hlen).
    exists rs. split; [done|]. rewrite Hlen, length_app. cbn. lia.
Qed.

(** Once the loop has gone through the outfits [pre] and returned
    nothing, it goes on with what follows them. *)
Lemma match_outfits_app (pre rest : list Outfit) (wardrobe : list WardrobeItem)
    (acc rs : list OutfitMatch) (used_items : gset string) :
  match_outfits pre wardrobe acc used_items = Ok (OutfitMatches rs) →
  ∃ used_items',
    match_outfits (pre ++ rest) wardrobe acc used_items
    = match_outfits rest wardrobe rs used_items'.
Proof.
  revert acc used_items.
  induction pre as [|p pre IH]; intros acc used_items; cbn [match_outfits app].
  - intros [= ->]. by exists used_items.
  - destruct (o_clothing_items p) as [items|]; [|discriminate].
    destruct (o_outfit_name p) as [name|]; [|discriminate].
    destruct (match_slots items wardrobe _) as [st|e]; cbn; [|discriminate].
    apply IH.
Qed.

Lemma match_outfits_error_only (outfits : list Outfit) (wardrobe : list WardrobeItem)
    (acc : list OutfitMatch) (used_items : gset string) (msg : string) :
  match_outfits outfits wardrobe acc used_items = Ok (ErrorDict msg) →
  msg = "No clothing items in outfit suggestion"
  ∧ ∃ o, o ∈ outfits ∧ o_clothing_items o = None.
Proof.
  revert acc used_items.
  induction outfits as [|o rest IH]; intros acc used_items; cbn [match_outfits];
    [discriminate|].
  destruct (o_clothing_items o) as [items|] eqn:Hitems.
  2:{ intros [= <-]. split; [done|]. exists o. split; [apply list_elem_of_here | done]. }
  destruct (o_outfit_name o); [|discriminate].
  destruct (match_slots items wardrobe _) as [st|e]; cbn; [|discriminate].
  intros H. apply IH in H as (Hmsg & o' & Hin & Ho').
  split; [done|]. exists o'. split; [by apply list_elem_of_further | done].
Qed.

(** The only exceptions of the matcher are the two [KeyError]s of its
    dict accesses. *)
Lemma best_match_loop_raises (suggested_item : SuggestedItem) (items : list WardrobeItem)
    (used_items : gset string) (matching_set_items : list WardrobeItem)
    (best_item : option WardrobeItem) (highest : float) (e : exn) :
  best_match_loop suggested_item items used_items matching_set_items best_item highest
    = Raise e →
  e = KeyError "type".
Proof.
  revert best_item highest.
  induction items as [|item rest IH]; intros best_item highest; cbn [best_match_loop];
    [discriminate|].
  destruct (decide _); [apply IH|].
  destruct (suggested_item !! "type"); [|by intros [= <-]].
  destruct (String.eqb _ _); [|apply IH].
  destruct (Num.gt _ _); apply IH.
Qed.

Lemma match_slots_raises (clothing_items : list SuggestedItem)
    (wardrobe : list WardrobeItem) (st : SlotState) (e : exn) :
  match_slots clothing_items wardrobe st = Raise e → e = KeyError "type".
Proof.
  revert st. induction clothing_items as [|item rest IH]; intros st; cbn [match_slots];
    [discriminate|].
  destruct (find_best_match item wardrobe _ _) as [[[found|] score]|e'] eqn:Hfind; cbn.
  - apply IH.
  - apply IH.
  - intros [= <-]. by apply best_match_loop_raises in Hfind.
Qed.

Lemma match_outfits_raises (outfits : list Outfit) (wardrobe : list WardrobeItem)
    (acc : list OutfitMatch) (used_items : gset string) (e : exn) :
  match_outfits outfits wardrobe acc used_items = Raise e →
  e = KeyError "type" ∨ e = KeyError "outfit_name".
Proof.
  revert acc used_items.
  induction outfits as [|o rest IH]; intros acc used_items; cbn [match_outfits];
    [discriminate|].
  destruct (o_clothing_items o) as [items|]; [|discriminate].
  destruct (o_outfit_name o); [|intros [= <-]; by right].
  destruct (match_slots items wardrobe _) as [st|e'] eqn:Hslots; cbn.
  - apply IH.
  - intros [= <-]. left. by apply match_slots_raises in Hslots.
Qed.

(** C6, as the claim states it, fails: for a suggestion without
    ["outfit_recommendations"] the matcher raises nothing; it returns the
    dict [{"error": ...}], which the caller then fails to read. *)
Lemma missing_key_is_returned_not_raised :
  match_outfit_with_wardrobe keyless_suggestion [white_top]
    = Ok (ErrorDict "Invalid outfit suggestion format")
  ∧ (∀ e, match_outfit_with_wardrobe keyless_suggestion [white_top] ≠ Raise e)
  ∧ generate_outfit_recommendation "u1" "office" keyless_suggestion [white_top]
    = Raise TypeError.
Proof. repeat split. intros e. discriminate. Qed.

(** C6 (amended). The matcher reports a malformed suggestion by
    returning a dict, not by raising: without ["outfit_recommendations"]
    it returns [{"error": "Invalid outfit suggestion format"}]; when,
    having gone through the outfits before it without an exception, it
    reaches an outfit without the key ["clothing_items"], it returns
    [{"error": "No clothing items in outfit suggestion"}]. It returns an
    error dict in no other case: when the suggestion has
    ["outfit_recommendations"] and every outfit has ["clothing_items"],
    no error dict is returned. *)
Theorem malformed_suggestion_returns_error_dict
    (outfit_suggestion : OutfitSuggestion) (wardrobe : list WardrobeItem) :
  (outfit_recommendations outfit_suggestion = None →
   match_outfit_with_wardrobe outfit_suggestion wardrobe
     = Ok (ErrorDict "Invalid outfit suggestion format"))
  ∧ (∀ pre o post rs,
       outfit_recommendations outfit_suggestion = Some (pre ++ o :: post)%list →
       match_outfits pre wardrobe [] ∅ = Ok (OutfitMatches rs) →
       o_clothing_items o = None →
       match_outfit_with_wardrobe outfit_suggestion wardrobe
         = Ok (ErrorDict "No clothing items in outfit suggestion"))
  ∧ (∀ msg,
       match_outfit_with_wardrobe outfit_suggestion wardrobe = Ok (ErrorDict msg) →
       (outfit_recommendations outfit_suggestion = None
        ∧ msg = "Invalid outfit suggestion format")
       ∨ (msg = "No clothing items in outfit suggestion"
          ∧ ∃ outfits o,
              outfit_recommendations outfit_suggestion = Some outfits
              ∧ o ∈ outfits ∧ o_clothing_items o = None))
  ∧ (∀ outfits msg,
       outfit_recommendations outfit_suggestion = Some outfits →
       Forall (λ o, is_Some (o_clothing_items o)) outfits →
       match_outfit_with_wardrobe outfit_suggestion wardrobe ≠ Ok (ErrorDict msg)).
Proof.
  unfold match_outfit_with_wardrobe. split; [|split; [|split]].
  - by intros ->.
  - intros pre o post rs -> Hpre Ho.
    destruct (match_outfits_app pre (o :: post) wardrobe [] rs ∅ Hpre) as [used' ->].
    cbn [match_outfits]. by rewrite Ho.
  - intros msg. destruct (outfit_recommendations outfit_suggestion) as [outfits|].
    + intros H. right. apply match_outfits_error_only in H as (Hmsg & o & Hin & Ho).
      split; [done|]. by exists outfits, o.
    + intros [= <-]. by left.
  - intros outfits msg -> Hall H.
    apply match_outfits_error_only in H as (_ & o & Hin & Ho).
    rewrite Forall_forall in Hall. destruct (Hall o Hin) as [items Hitems].
    congruence.
Qed.

Lemma malformed_suggestion_returns_error_dict_witness :
  match_outfit_with_wardrobe
    (mk_suggestion
       [mk_outfit "first" [white_top_slot];
        {| o_outfit_name := Some "second"; o_clothing_items := None |}])
    [white_top]
  = Ok (ErrorDict "No clothing items in outfit suggestion").
Proof.
  eapply (proj1 (proj2 (malformed_suggestion_returns_error_dict _ [white_top]))
            [mk_outfit "first" [white_top_slot]]
            {| o_outfit_name := Some "second"; o_clothing_items := None |} []).
  - reflexivity.
  - reflexivity.
  - reflexivity.
Defined.

Lemma match_slots_nothing_to_match (clothing_items : list SuggestedItem)
    (wardrobe : list WardrobeItem) (st : SlotState) :
  wardrobe = [] ∨ clothing_items = [] →
  match_slots clothing_items wardrobe st
    = Ok {| st_matched_items :=
              (st_matched_items st ++ (no_match_entry <$> clothing_items))%list;
            st_matched_items_objects := st_matched_items_objects st;
            st_total_score := st_total_score st;
            st_used_items := st_used_items st |}.
Proof.
  intros [-> | ->].
  - revert st. induction clothing_items as [|item rest IH]; intros st.
    + destruct st. cbn. by rewrite app_nil_r.
    + cbn. rewrite IH. cbn. by rewrite <- app_assoc.
  - destruct st. cbn. by rewrite app_nil_r.
Qed.

Lemma match_outfits_unmatched (outfits : list Outfit) (wardrobe : list WardrobeItem)
    (acc : list OutfitMatch) (used_items : gset string) :
  Forall named_outfit outfits →
  wardrobe = [] ∨ Forall (λ o, o_clothing_items o = Some []) outfits →
  match_outfits outfits wardrobe acc used_items
    = Ok (OutfitMatches (acc ++ (unmatched_outfit <$> outfits))%list).
Proof.
  intros Hall Hempty. revert acc.
  induction Hall as [|o rest [[name Hname] [items Hitems]] _ IH]; intros acc;
    cbn [match_outfits].
  - cbn. by rewrite app_nil_r.
  - rewrite Hitems, Hname. rewrite match_slots_nothing_to_match.
    + cbn. rewrite IH.
      * unfold unmatched_outfit at 2. rewrite Hitems, Hname. cbn.
        by rewrite <- app_assoc.
      * destruct Hempty as [? | Hempty]; [by left | right].
        by apply Forall_cons in Hempty as [_ ?].
    + destruct Hempty as [? | Hempty]; [by left | right].
      apply Forall_cons in Hempty as [Ho _]. congruence.
Qed.

Lemma max_loop_elem (l : list OutfitMatch) (best : OutfitMatch) :
  max_loop l best ∈ best :: l.
Proof.
  revert best. induction l as [|x l IH]; intros best; cbn [max_loop].
  - apply list_elem_of_here.
  - destruct (Num.gt _ _).
    + apply list_elem_of_further, IH.
    + destruct (proj1 (elem_of_cons _ _ _) (IH best)) as [-> | Hin].
      * apply list_elem_of_here.
      * by do 2 apply list_elem_of_further.
Qed.

Lemma unmatched_outfit_no_ids (o : Outfit) (id : string) :
  Some id ∉ mr_item_id <$> matched_items (unmatched_outfit o).
Proof.
  cbn. intros Hin. apply list_elem_of_fmap in Hin as (m & Hm & Hin).
  apply list_elem_of_fmap in Hin as (item & -> & _). discriminate.
Qed.

Lemma unmatched_outfit_resolves_to_nothing (o : Outfit) (wardrobe : list WardrobeItem) :
  filter (λ item, Some (item_id item) ∈ mr_item_id <$> matched_items (unmatched_outfit o))
    wardrobe = [].
Proof.
  induction wardrobe as [|item items IH]; [done|].
  rewrite filter_cons_False; [exact IH | apply unmatched_outfit_no_ids].
Qed.

(** C7. With an empty list of candidate outfits the selection step fails:
    [max] raises [ValueError] on the empty sequence of outfit matches.
    With an empty wardrobe, or with outfits whose lists of items are all
    empty, a non-empty list of outfits having their two keys is matched
    without error: every slot of every outfit is recorded as unmatched,
    and the recommendation that is returned holds no item. *)
Theorem degenerate_inputs (user_id occasion : string) (keys : list string)
    (wardrobe : list WardrobeItem) (outfits : list Outfit) :
  generate_outfit_recommendation user_id occasion
    {| outfit_recommendations := Some []; other_keys := keys |} wardrobe
    = Raise ValueError
  ∧ (outfits ≠ [] →
     Forall named_outfit outfits →
     wardrobe = [] ∨ Forall (λ o, o_clothing_items o = Some []) outfits →
     match_outfit_with_wardrobe
       {| outfit_recommendations := Some outfits; other_keys := keys |} wardrobe
       = Ok (OutfitMatches (unmatched_outfit <$> outfits))
     ∧ generate_outfit_recommendation user_id occasion
         {| outfit_recommendations := Some outfits; other_keys := keys |} wardrobe
       = Ok {| user_id := user_id; occasion := occasion; outfit := [] |}).
Proof.
  split; [reflexivity|].
  intros Hne Hnamed Hempty.
  assert (Hrun : match_outfit_with_wardrobe
            {| outfit_recommendations := Some outfits; other_keys := keys |} wardrobe
            = Ok (OutfitMatches (unmatched_outfit <$> outfits))).
  { unfold match_outfit_with_wardrobe. cbn.
    by rewrite (match_outfits_unmatched outfits wardrobe [] ∅ Hnamed Hempty). }
  split; [exact Hrun|].
  unfold generate_outfit_recommendation. cbn [empty_suggestion outfit_recommendations].
  rewrite Hrun. cbn [mbind result_bind].
  destruct outfits as [|o rest]; [done|]. cbn [fmap list_fmap highest_score].
  pose proof (max_loop_elem (unmatched_outfit <$> rest) (unmatched_outfit o)) as Hin.
  change (unmatched_outfit o :: (unmatched_outfit <$> rest))
    with (unmatched_outfit <$> o :: rest) in Hin.
  apply list_elem_of_fmap in Hin as (o' & -> & _).
  cbn [mbind result_bind]. by rewrite unmatched_outfit_resolves_to_nothing.
Qed.

Lemma degenerate_inputs_witness :
  generate_outfit_recommendation "u1" "office"
    {| outfit_recommendations := Some [mk_outfit "first" [white_top_slot]];
       other_keys := [] |} []
  = Ok {| user_id := "u1"; occasion := "office"; outfit := [] |}.
Proof.
  apply (degenerate_inputs "u1" "office" [] []
           [mk_outfit "first" [white_top_slot]]).
  - discriminate.
  - constructor; [|constructor]. split; by eexists.
  - by left.
Defined.

(** [ValueError] is the error of a suggestion without candidate outfits,
    and of no other. *)
Lemma value_error_only_without_candidates (user_id occasion : string)
    (outfit_suggestion : OutfitSuggestion) (wardrobe : list WardrobeItem) :
  generate_outfit_recommendation user_id occasion outfit_suggestion wardrobe
    = Raise ValueError →
  outfit_recommendations outfit_suggestion = Some [].
Proof.
  unfold generate_outfit_recommendation, match_outfit_with_wardrobe.
  destruct (empty_suggestion outfit_suggestion); [discriminate|].
  destruct (outfit_recommendations outfit_suggestion) as [outfits|]; [|discriminate].
  destruct (match_outfits outfits wardrobe [] ∅) as [[msg|rs]|e] eqn:Hrun;
    cbn [mbind result_bind highest_score]; [discriminate | |].
  - apply match_outfits_spec in Hrun as (new & -> & Hlen & _).
    destruct new as [|r new]; [|discriminate].
    intros _. by destruct outfits.
  - intros [= ->]. by apply match_outfits_raises in Hrun as [? | ?].
Qed.

(** * Further properties *)

(** ** The order of scores *)

Ltac spec_float_order :=
  intros;
  repeat match goal with
         | x : spec_float |- _ => destruct x
         | s : bool |- _ => destruct s
         end;
  cbn in *; try discriminate; try done;
  repeat match goal with
         | H : context [Z.compare ?x ?y] |- _ => destruct (Z.compare_spec x y)
         | |- context [Z.compare ?x ?y] => destruct (Z.compare_spec x y)
         end;
  try discriminate; try done; try lia; subst;
  change (Pos.compare_cont Eq) with Pos.compare in *;
  repeat match goal with
         | H : context [Pos.compare ?x ?y] |- _ => destruct (Pos.compare_spec x y)
         | |- context [Pos.compare ?x ?y] => destruct (Pos.compare_spec x y)
         end;
  cbn in *; try discriminate; try done; try lia.

Lemma SFltb_trans (x y z : spec_float) :
  SFltb x y = true → SFltb y z = true → SFltb x z = true.
Proof. unfold SFltb. spec_float_order. Qed.

Lemma SFltb_leb_trans (x y z : spec_float) :
  SFltb x y = true → SFleb y z = true → SFltb x z = true.
Proof. unfold SFltb, SFleb. spec_float_order. Qed.

Lemma SFltb_not_leb (x y : spec_float) : SFltb x y = true → SFleb y x = false.
Proof. unfold SFltb, SFleb. spec_float_order. Qed.

(** Python's [>] on floats is transitive. *)
Lemma gt_trans (x y z : float) :
  Num.gt x y = true → Num.gt y z = true → Num.gt x z = true.
Proof.
  unfold Num.gt. rewrite !ltb_spec. intros Hxy Hyz. by eapply SFltb_trans.
Qed.

(** [z >= y] and [y > x] give [z > x]. *)
Lemma gt_leb_trans (x y z : float) :
  Num.gt y x = true → (y <=? z)%float = true → Num.gt z x = true.
Proof. unfold Num.gt. rewrite !ltb_spec, leb_spec. apply SFltb_leb_trans. Qed.

Lemma gt_not_leb (x y : float) : Num.gt x y = true → (x <=? y)%float = false.
Proof. unfold Num.gt. rewrite ltb_spec, leb_spec. apply SFltb_not_leb. Qed.

(** ** [normalize] *)

Lemma lower_alnum_not_upper (c : ascii) : is_lower_alnum c = true → is_upper c = false.
Proof.
  unfold is_lower_alnum, is_upper. cbv zeta.
  destruct (Nat.leb_spec 97 (nat_of_ascii c)), (Nat.leb_spec (nat_of_ascii c) 122),
    (Nat.leb_spec 48 (nat_of_ascii c)), (Nat.leb_spec (nat_of_ascii c) 57),
    (Nat.leb_spec 65 (nat_of_ascii c)), (Nat.leb_spec (nat_of_ascii c) 90);
    cbn; try done; intros _; exfalso; lia.
Qed.

Lemma lower_char_idemp (c : ascii) : lower_char (lower_char c) = lower_char c.
Proof.
  unfold lower_char at 2 3.
  destruct (is_upper c) eqn:Hup; [|by unfold lower_char; rewrite Hup].
  unfold is_upper in Hup. cbv zeta in Hup.
  apply andb_true_iff in Hup as [H1 H2].
  apply Nat.leb_le in H1, H2.
  unfold lower_char, is_upper. cbv zeta.
  rewrite nat_ascii_embedding by lia.
  destruct (Nat.leb_spec 65 (nat_of_ascii c + 32)), (Nat.leb_spec (nat_of_ascii c + 32) 90);
    cbn; try done; exfalso; lia.
Qed.

Lemma lower_idemp (s : string) : lower (lower s) = lower s.
Proof. induction s as [|c s IH]; cbn; [done|]. by rewrite lower_char_idemp, IH. Qed.

Lemma lower_app (s1 s2 : string) : lower (s1 +:+ s2) = lower s1 +:+ lower s2.
Proof. induction s1 as [|c s1 IH]; simpl; [done|]. by rewrite IH. Qed.

Lemma strip_non_alnum_app (s1 s2 : string) :
  strip_non_alnum (s1 +:+ s2) = strip_non_alnum s1 +:+ strip_non_alnum s2.
Proof.
  induction s1 as [|c s1 IH]; simpl; [done|].
  destruct (is_lower_alnum c); simpl; by rewrite IH.
Qed.

Lemma strip_non_alnum_alphabet (s : string) (c : ascii) :
  In c (list_ascii_of_string (strip_non_alnum s)) → is_lower_alnum c = true.
Proof.
  induction s as [|d s IH]; cbn; [done|].
  destruct (is_lower_alnum d) eqn:Hd; cbn; [|exact IH].
  intros [<- | Hin]; [done | by apply IH].
Qed.

(** A string of lower-case letters and digits is its own normal form. *)
Lemma strip_lower_fixed (s : string) :
  (∀ c, In c (list_ascii_of_string s) → is_lower_alnum c = true) →
  strip_non_alnum (lower s) = s.
Proof.
  induction s as [|c s IH]; cbn; [done|]. intros Hall.
  assert (Hc : is_lower_alnum c = true) by (apply Hall; by left).
  unfold lower_char. rewrite (lower_alnum_not_upper c Hc), Hc.
  f_equal. apply IH. intros d Hd. apply Hall. by right.
Qed.

Lemma normalize_some (s : string) : normalize (Some s) = strip_non_alnum (lower s).
Proof. by destruct s. Qed.

(** X1. [normalize] returns nothing but lower-case ASCII letters and
    digits, and it is idempotent: a normal form is its own normal form. *)
Theorem normalize_idempotent (text : option string) :
  (∀ c, In c (list_ascii_of_string (normalize text)) → is_lower_alnum c = true)
  ∧ normalize (Some (normalize text)) = normalize text.
Proof.
  assert (Halpha : ∀ c, In c (list_ascii_of_string (normalize text)) →
                        is_lower_alnum c = true).
  { destruct text as [s|]; [|done]. rewrite normalize_some.
    apply strip_non_alnum_alphabet. }
  split; [exact Halpha|].
  rewrite normalize_some. by apply strip_lower_fixed.
Qed.

(** X2. [normalize] works character by character: the normal form of a
    concatenation is the concatenation of the normal forms, and lowering
    the case of a text first changes nothing. *)
Theorem normalize_concatenation (s1 s2 : string) :
  normalize (Some (s1 +:+ s2)) = normalize (Some s1) +:+ normalize (Some s2)
  ∧ normalize (Some (lower s1)) = normalize (Some s1).
Proof.
  rewrite !normalize_some. split.
  - by rewrite lower_app, strip_non_alnum_app.
  - by rewrite lower_idemp.
Qed.

Example normalize_dark_brown :
  normalize (Some "Dark-Brown") = normalize (Some "dark brown").
Proof. reflexivity. Qed.

(** ** The scorer reads normal forms only *)

Lemma get_text_similarity_normal_forms (t1 t2 u1 u2 : option string) :
  truthy t1 = truthy u1 → normalize t1 = normalize u1 →
  truthy t2 = truthy u2 → normalize t2 = normalize u2 →
  get_text_similarity t1 t2 = get_text_similarity u1 u2.
Proof. unfold get_text_similarity. by intros -> -> -> ->. Qed.

(** X3. The score of a pair depends on the type, color, pattern and
    fabric of the two items through their normal forms only, and on the
    descriptions through their normal forms and their being empty or
    not: case, spaces and punctuation never change a score, and the id,
    brand, image and date of the wardrobe item are not looked at. *)
Theorem get_match_score_normal_forms (s s' : SuggestedItem) (w w' : WardrobeItem) :
  normalize (Some (type w)) = normalize (Some (type w')) →
  normalize (summary_type s) = normalize (summary_type s') →
  normalize (color w) = normalize (color w') →
  normalize (get_or_empty s "color") = normalize (get_or_empty s' "color") →
  normalize (pattern w) = normalize (pattern w') →
  normalize (get_or_empty s "pattern") = normalize (get_or_empty s' "pattern") →
  normalize (fabric w) = normalize (fabric w') →
  normalize (get_or_empty s "fabric") = normalize (get_or_empty s' "fabric") →
  truthy (description w) = truthy (description w') →
  normalize (description w) = normalize (description w') →
  truthy (get_or_empty s "description") = truthy (get_or_empty s' "description") →
  normalize (get_or_empty s "description") = normalize (get_or_empty s' "description") →
  get_match_score s w = get_match_score s' w'.
Proof.
  intros Hty Hsty Hc Hsc Hp Hsp Hf Hsf Hdt Hd Hsdt Hsd.
  unfold get_match_score, type_matches, add_description, add_fabric, add_pattern,
    add_color.
  by rewrite Hty, Hsty, Hc, Hsc, Hp, Hsp, Hf, Hsf,
    (get_text_similarity_normal_forms _ _ _ _ Hdt Hd Hsdt Hsd).
Qed.

Lemma get_match_score_normal_forms_witness :
  get_match_score
    (mk_slot [("type", "Top"); ("color", "Dark-Brown"); ("description", "A wool coat.")])
    (mk_item "A" "top" (Some "dark brown") None None (Some "a WOOL coat"))
  = get_match_score
      (mk_slot [("type", "top"); ("color", "darkbrown"); ("description", "awoolcoat")])
      (mk_item "Z" "T.O.P." (Some "DARK BROWN") (Some "!") (Some "-") (Some "A-Wool-Coat")).
Proof.
  apply (get_match_score_normal_forms
           (mk_slot [("type", "Top"); ("color", "Dark-Brown"); ("description", "A wool coat.")])
           (mk_slot [("type", "top"); ("color", "darkbrown"); ("description", "awoolcoat")])
           (mk_item "A" "top" (Some "dark brown") None None (Some "a WOOL coat"))
           (mk_item "Z" "T.O.P." (Some "DARK BROWN") (Some "!") (Some "-") (Some "A-Wool-Coat")));
    reflexivity.
Defined.

(** ** [find_best_match] picks the first maximum *)

Lemma best_match_loop_no_type (suggested_item : SuggestedItem) (items : list WardrobeItem)
    (used_items : gset string) (matching_set_items : list WardrobeItem)
    (best_item best' : option WardrobeItem) (highest highest' : float) :
  suggested_item !! "type" = None →
  best_match_loop suggested_item items used_items matching_set_items best_item highest
    = Ok (best', highest') →
  best' = best_item ∧ highest' = highest.
Proof.
  intros Hty. induction items as [|item rest IH]; cbn [best_match_loop].
  - by intros [= -> ->].
  - destruct (decide _); [exact IH|]. by rewrite Hty.
Qed.

Section FirstMaximum.

Variables (suggested_item : SuggestedItem) (suggested_type : option string).
Variables (used_items : gset string) (matching_set_items : list WardrobeItem).
Hypothesis Htype : suggested_item !! "type" = Some suggested_type.

(** Either the loop keeps the pair it started from, no candidate
    exceeding [highest], or it ends on a candidate that exceeds
    [highest], that no later candidate exceeds and no earlier candidate
    reaches. *)
Lemma best_match_loop_first_max (items : list WardrobeItem)
    (best_item best' : option WardrobeItem) (highest highest' : float) :
  best_match_loop suggested_item items used_items matching_set_items best_item highest
    = Ok (best', highest') →
  (best' = best_item ∧ highest' = highest
   ∧ ∀ c, c ∈ items → candidate suggested_type used_items c →
       Num.gt (adjusted_score suggested_item c matching_set_items) highest = false)
  ∨ ∃ pre item post,
      items = (pre ++ item :: post)%list
      ∧ best' = Some item
      ∧ highest' = adjusted_score suggested_item item matching_set_items
      ∧ candidate suggested_type used_items item
      ∧ Num.gt highest' highest = true
      ∧ (∀ c, c ∈ pre → candidate suggested_type used_items c →
           (highest' <=? adjusted_score suggested_item c matching_set_items)%float = false)
      ∧ (∀ c, c ∈ post → candidate suggested_type used_items c →
           Num.gt (adjusted_score suggested_item c matching_set_items) highest' = false).
Proof.
  revert best_item highest.
  induction items as [|item rest IH]; intros best_item highest; cbn [best_match_loop].
  - intros [= -> ->]. left. split; [done|]. split; [done|].
    intros c Hc. by apply elem_of_nil in Hc.
  - assert (Hskip : ¬ candidate suggested_type used_items item →
      best_match_loop suggested_item rest used_items matching_set_items best_item highest
        = Ok (best', highest') →
      (best' = best_item ∧ highest' = highest
       ∧ ∀ c, c ∈ item :: rest → candidate suggested_type used_items c →
           Num.gt (adjusted_score suggested_item c matching_set_items) highest = false)
      ∨ ∃ pre it post,
          item :: rest = (pre ++ it :: post)%list
          ∧ best' = Some it
          ∧ highest' = adjusted_score suggested_item it matching_set_items
          ∧ candidate suggested_type used_items it
          ∧ Num.gt highest' highest = true
          ∧ (∀ c, c ∈ pre → candidate suggested_type used_items c →
               (highest' <=? adjusted_score suggested_item c matching_set_items)%float
               = false)
          ∧ (∀ c, c ∈ post → candidate suggested_type used_items c →
               Num.gt (adjusted_score suggested_item c matching_set_items) highest'
               = false)).
    { intros Hnot Hrun.
      destruct (IH _ _ Hrun) as [(-> & -> & Hall) | (pre & it & post & -> & Hrest)].
      - left. split; [done|]. split; [done|]. intros c Hc Hcand.
        apply elem_of_cons in Hc as [-> | Hc]; [done | by apply Hall].
      - right. exists (item :: pre), it, post. split; [done|].
        destruct Hrest as (Hb & Hh & Hit & Hup & Hpre & Hpost).
        split; [exact Hb|]. split; [exact Hh|]. split; [exact Hit|].
        split; [exact Hup|]. split; [|exact Hpost].
        intros c Hc Hcand. apply elem_of_cons in Hc as [-> | Hc]; [done | by apply Hpre]. }
    destruct (decide (item_id item ∈ used_items)) as [Hused | Hfree];
      [apply Hskip; by intros [? _]|].
    rewrite Htype.
    destruct (String.eqb_spec (normalize (Some (type item)))
                (normalize suggested_type)) as [Hsame | Hother];
      [|apply Hskip; by intros [_ ?]].
    assert (Hcand : candidate suggested_type used_items item) by done.
    destruct (Num.gt (adjusted_score suggested_item item matching_set_items) highest)
      eqn:Hgt; intros Hrun.
    + destruct (IH _ _ Hrun) as [(-> & -> & Hall) | (pre & it & post & -> & Hrest)].
      * right. exists [], item, rest. split; [done|]. split; [done|]. split; [done|].
        split; [exact Hcand|]. split; [exact Hgt|]. split; [|exact Hall].
        intros c Hc. by apply elem_of_nil in Hc.
      * right. exists (item :: pre), it, post. split; [done|].
        destruct Hrest as (Hb & -> & Hit & Hup & Hpre & Hpost).
        split; [exact Hb|]. split; [done|]. split; [exact Hit|].
        split; [by apply (gt_trans _ _ _ Hup)|]. split; [|exact Hpost].
        intros c Hc Hc'. apply elem_of_cons in Hc as [-> | Hc]; [|by apply Hpre].
        by apply gt_not_leb.
    + destruct (IH _ _ Hrun) as [(-> & -> & Hall) | (pre & it & post & -> & Hrest)].
      * left. split; [done|]. split; [done|]. intros c Hc Hc'.
        apply elem_of_cons in Hc as [-> | Hc]; [done | by apply Hall].
      * right. exists (item :: pre), it, post. split; [done|].
        destruct Hrest as (Hb & -> & Hit & Hup & Hpre & Hpost).
        split; [exact Hb|]. split; [done|]. split; [exact Hit|].
        split; [exact Hup|]. split; [|exact Hpost].
        intros c Hc Hc'. apply elem_of_cons in Hc as [-> | Hc]; [|by apply Hpre].
        destruct (_ <=? _)%float eqn:Hle; [|done].
        by rewrite (gt_leb_trans _ _ _ Hup Hle) in Hgt.
Qed.

End FirstMaximum.

(** X4. When the engine assigns an item to a slot, the item is an
    unused wardrobe item of the slot's type, its adjusted score is above
    -1, no candidate placed after it in the wardrobe has a greater
    adjusted score and no candidate placed before it has an adjusted
    score as great: the first maximum wins. *)
Theorem find_best_match_first_maximum (suggested_item : SuggestedItem)
    (wardrobe_items : list WardrobeItem) (used_items : gset string)
    (matching_set_items : list WardrobeItem) (item : WardrobeItem) (score : float) :
  find_best_match suggested_item wardrobe_items used_items matching_set_items
    = Ok (Some item, score) →
  ∃ suggested_type pre post,
    suggested_item !! "type" = Some suggested_type
    ∧ wardrobe_items = (pre ++ item :: post)%list
    ∧ candidate suggested_type used_items item
    ∧ score = adjusted_score suggested_item item matching_set_items
    ∧ Num.gt score (-1) = true
    ∧ (∀ c, c ∈ pre → candidate suggested_type used_items c →
         (score <=? adjusted_score suggested_item c matching_set_items)%float = false)
    ∧ (∀ c, c ∈ post → candidate suggested_type used_items c →
         Num.gt (adjusted_score suggested_item c matching_set_items) score = false).
Proof.
  unfold find_best_match. intros Hrun.
  destruct (suggested_item !! "type") as [suggested_type|] eqn:Hty.
  2:{ by apply (best_match_loop_no_type _ _ _ _ _ _ _ _ Hty) in Hrun as [? _]. }
  exists suggested_type.
  destruct (best_match_loop_first_max _ _ _ _ Hty _ _ _ _ _ Hrun)
    as [([=] & _) | (pre & it & post & -> & [= <-] & -> & Hrest)].
  exists pre, post. split; [done|]. split; [done|].
  destruct Hrest as (Hit & Hup & Hpre & Hpost).
  split; [exact Hit|]. split; [done|]. split; [exact Hup|]. by split.
Qed.

Lemma find_best_match_first_maximum_witness :
  ∃ suggested_type pre post,
    white_top_slot !! "type" = Some suggested_type
    ∧ [shirt_a; shirt_b] = (pre ++ shirt_a :: post)%list
    ∧ candidate suggested_type ∅ shirt_a
    ∧ 7%float = adjusted_score white_top_slot shirt_a []
    ∧ Num.gt 7 (-1) = true
    ∧ (∀ c, c ∈ pre → candidate suggested_type ∅ c →
         (7 <=? adjusted_score white_top_slot c [])%float = false)
    ∧ (∀ c, c ∈ post → candidate suggested_type ∅ c →
         Num.gt (adjusted_score white_top_slot c []) 7 = false).
Proof.
  apply (find_best_match_first_maximum white_top_slot [shirt_a; shirt_b] ∅ [] shirt_a 7).
  vm_compute. reflexivity.
Defined.

(** ** [find_best_match] sees the candidates only *)

Lemma candidateb_spec (suggested_type : option string) (used_items : gset string)
    (item : WardrobeItem) :
  candidateb suggested_type used_items item = true
  ↔ candidate suggested_type used_items item.
Proof.
  unfold candidateb, candidate.
  rewrite andb_true_iff, bool_decide_eq_true, String.eqb_eq. done.
Qed.

(** X5. The outcome of the engine for a slot that has a type depends on
    the wardrobe through its candidates only: removing from the wardrobe
    every item that is used or of another type changes neither the item
    chosen nor its score. *)
Theorem find_best_match_candidates_only (suggested_item : SuggestedItem)
    (suggested_type : option string) (wardrobe_items : list WardrobeItem)
    (used_items : gset string) (matching_set_items : list WardrobeItem)
    (Htype : suggested_item !! "type" = Some suggested_type) :
  find_best_match suggested_item wardrobe_items used_items matching_set_items
  = find_best_match suggested_item
      (filter (λ item, candidateb suggested_type used_items item) wardrobe_items)
      used_items matching_set_items.
Proof.
  unfold find_best_match. generalize (@None WardrobeItem) (-1)%float.
  induction wardrobe_items as [|item rest IH]; intros best_item highest; [done|].
  destruct (candidateb suggested_type used_items item) eqn:Hc.
  - rewrite filter_cons_True by by rewrite Hc.
    apply candidateb_spec in Hc as [Hfree Hsame].
    apply String.eqb_eq in Hsame. cbn [best_match_loop].
    destruct (decide (item_id item ∈ used_items)) as [Hused | _]; [done|].
    rewrite Htype, Hsame.
    destruct (Num.gt _ _); apply IH.
  - rewrite filter_cons_False by (rewrite Hc; intros []).
    cbn [best_match_loop]. rewrite <- IH.
    destruct (decide (item_id item ∈ used_items)) as [Hused | Hfree]; [done|].
    rewrite Htype.
    destruct (String.eqb_spec (normalize (Some (type item)))
                (normalize suggested_type)) as [Hsame | Hother]; [|done].
    assert (candidateb suggested_type used_items item = true) by by apply candidateb_spec.
    congruence.
Qed.

Lemma find_best_match_candidates_only_witness :
  find_best_match striped_top_slot [shirt_a; blue_bottom; shirt_c] {["A"]} [shirt_a]
  = find_best_match striped_top_slot
      (filter (λ item, candidateb (Some "top") {["A"]} item)
              [shirt_a; blue_bottom; shirt_c])
      {["A"]} [shirt_a].
Proof.
  apply (find_best_match_candidates_only striped_top_slot (Some "top")
           [shirt_a; blue_bottom; shirt_c] {["A"]} [shirt_a]).
  reflexivity.
Defined.

(** ** The shape of what the matcher returns *)

Lemma find_best_match_filled (item : SuggestedItem) (wardrobe : list WardrobeItem)
    (used_items : gset string) (matching_set_items : list WardrobeItem)
    (found : WardrobeItem) (score : float) :
  find_best_match item wardrobe used_items matching_set_items = Ok (Some found, score) →
  slot_filled_from wardrobe item (matched_entry found score item).
Proof.
  unfold find_best_match. intros Hrun.
  destruct (item !! "type") as [suggested_type|] eqn:Hty.
  2:{ by apply (best_match_loop_no_type _ _ _ _ _ _ _ _ Hty) in Hrun as [? _]. }
  destruct (best_match_loop_first_max _ _ _ _ Hty _ _ _ _ _ Hrun)
    as [([=] & _) | (pre & it & post & -> & [= <-] & -> & [_ Hsame] & Hup & _)].
  right. exists found, (adjusted_score item found matching_set_items), suggested_type.
  split; [apply elem_of_app; right; apply list_elem_of_here|]. done.
Qed.

Lemma match_slots_filled (clothing_items : list SuggestedItem)
    (wardrobe : list WardrobeItem) (st st' : SlotState) :
  match_slots clothing_items wardrobe st = Ok st' →
  ∃ new : list MatchResult,
    st_matched_items st' = (st_matched_items st ++ new)%list
    ∧ Forall2 (slot_filled_from wardrobe) clothing_items new.
Proof.
  revert st. induction clothing_items as [|item rest IH]; intros st; cbn [match_slots].
  - intros [= <-]. exists []. by rewrite app_nil_r.
  - destruct (find_best_match item wardrobe (st_used_items st)
                (st_matched_items_objects st)) as [[[found|] score]|e] eqn:Hfind;
      cbn; [| |discriminate].
    + intros H. apply IH in H as (new & Hitems & Hall). cbn in Hitems.
      exists (matched_entry found score item :: new).
      rewrite Hitems, <- app_assoc. split; [done|].
      constructor; [by eapply find_best_match_filled | exact Hall].
    + intros H. apply IH in H as (new & Hitems & Hall). cbn in Hitems.
      exists (no_match_entry item :: new).
      rewrite Hitems, <- app_assoc. split; [done|].
      constructor; [by left | exact Hall].
Qed.

Lemma match_outfits_filled (outfits : list Outfit) (wardrobe : list WardrobeItem)
    (acc : list OutfitMatch) (used_items : gset string) (rs : list OutfitMatch) :
  match_outfits outfits wardrobe acc used_items = Ok (OutfitMatches rs) →
  ∃ new : list OutfitMatch,
    rs = (acc ++ new)%list ∧ Forall2 (outfit_matched_from wardrobe) outfits new.
Proof.
  revert acc used_items.
  induction outfits as [|o rest IH]; intros acc used_items; cbn [match_outfits].
  - intros [= <-]. exists []. by rewrite app_nil_r.
  - destruct (o_clothing_items o) as [clothing_items|] eqn:Hitems; [|discriminate].
    destruct (o_outfit_name o) as [name|] eqn:Hname; [|discriminate].
    destruct (match_slots clothing_items wardrobe _) as [st|e] eqn:Hslots;
      cbn; [|discriminate].
    apply match_slots_filled in Hslots as (slots & Hslots & Hall). cbn in Hslots.
    intros H. apply IH in H as (new & -> & Hrest).
    eexists (_ :: new). rewrite <- app_assoc. split; [reflexivity|].
    constructor; [|exact Hrest].
    exists clothing_items. cbn. by rewrite Hslots.
Qed.

Lemma matcher_filled (outfit_suggestion : OutfitSuggestion)
    (wardrobe : list WardrobeItem) (rs : list OutfitMatch) :
  match_outfit_with_wardrobe outfit_suggestion wardrobe = Ok (OutfitMatches rs) →
  ∃ outfits,
    outfit_recommendations outfit_suggestion = Some outfits
    ∧ Forall2 (outfit_matched_from wardrobe) outfits rs.
Proof.
  unfold match_outfit_with_wardrobe.
  destruct (outfit_recommendations outfit_suggestion) as [outfits|]; [|discriminate].
  intros H. apply match_outfits_filled in H as (new & -> & Hall). by exists outfits.
Qed.

Lemma slot_filled_suggestion (wardrobe : list WardrobeItem) (item : SuggestedItem)
    (m : MatchResult) :
  slot_filled_from wardrobe item m → mr_suggestion m = suggestion_of item.
Proof. by intros [-> | (w & score & ty & _ & -> & _)]. Qed.

(** X6. The list the matcher returns answers the candidate outfits one
    by one and in order: the k-th outfit match carries the name of the
    k-th outfit and one slot result per suggested item, in order, each
    with the attributes of its suggested item under ["suggestion"]. *)
Theorem matcher_answers_in_order (outfit_suggestion : OutfitSuggestion)
    (wardrobe : list WardrobeItem) (rs : list OutfitMatch) :
  match_outfit_with_wardrobe outfit_suggestion wardrobe = Ok (OutfitMatches rs) →
  ∃ outfits,
    outfit_recommendations outfit_suggestion = Some outfits
    ∧ length rs = length outfits
    ∧ ∀ k o r, outfits !! k = Some o → rs !! k = Some r →
        o_outfit_name o = Some (outfit_name r)
        ∧ ∃ clothing_items,
            o_clothing_items o = Some clothing_items
            ∧ mr_suggestion <$> matched_items r = suggestion_of <$> clothing_items.
Proof.
  intros H. apply matcher_filled in H as (outfits & Hsome & Hall).
  exists outfits. split; [done|]. split; [symmetry; by eapply Forall2_length|].
  intros k o r Ho Hr.
  destruct (Forall2_lookup_lr _ _ _ _ _ _ Hall Ho Hr) as (items & Hname & Hitems & Hslots).
  split; [done|]. exists items. split; [done|].
  clear Hitems. induction Hslots as [|item m its ms Hm _ IH]; [done|].
  cbn. by rewrite (slot_filled_suggestion _ _ _ Hm), IH.
Qed.

Lemma matcher_answers_in_order_witness :
  ∃ outfits,
    outfit_recommendations same_top_twice = Some outfits
    ∧ length same_top_twice_matches = length outfits
    ∧ ∀ k o r, outfits !! k = Some o → same_top_twice_matches !! k = Some r →
        o_outfit_name o = Some (outfit_name r)
        ∧ ∃ clothing_items,
            o_clothing_items o = Some clothing_items
            ∧ mr_suggestion <$> matched_items r = suggestion_of <$> clothing_items.
Proof.
  apply (matcher_answers_in_order same_top_twice [white_top] same_top_twice_matches).
  reflexivity.
Defined.

(** X7. Every slot result that names an item is a copy of an item of the
    wardrobe (its id, description, type, color and fabric), whose
    normalized type is the normalized type of the suggested item, and
    its score is above -1. *)
Theorem matched_entry_is_wardrobe_item (outfit_suggestion : OutfitSuggestion)
    (wardrobe : list WardrobeItem) (rs : list OutfitMatch) (r : OutfitMatch)
    (m : MatchResult) (id : string) :
  match_outfit_with_wardrobe outfit_suggestion wardrobe = Ok (OutfitMatches rs) →
  r ∈ rs → m ∈ matched_items r → mr_item_id m = Some id →
  ∃ w,
    w ∈ wardrobe
    ∧ m = Matched (item_id w) (description w) (type w) (color w) (fabric w)
            (mr_score m) (mr_suggestion m)
    ∧ item_id w = id
    ∧ normalize (Some (type w)) = normalize (sg_type (mr_suggestion m))
    ∧ Num.gt (mr_score m) (-1) = true.
Proof.
  intros H Hr Hm Hid. apply matcher_filled in H as (outfits & _ & Hall).
  apply list_elem_of_lookup in Hr as [k Hr].
  destruct (Forall2_lookup_r _ _ _ _ _ Hall Hr) as (o & _ & items & _ & _ & Hslots).
  apply list_elem_of_lookup in Hm as [p Hm].
  destruct (Forall2_lookup_r _ _ _ _ _ Hslots Hm)
    as (item & _ & [-> | (w & score & ty & Hw & -> & Hty & Hsame & Hup)]);
    [discriminate|].
  exists w. cbn in *. split; [done|]. split; [done|]. split; [congruence|].
  split; [|done]. unfold get_or_empty. by rewrite Hty.
Qed.

Lemma matched_entry_is_wardrobe_item_witness :
  ∃ w,
    w ∈ [shirt_a; shirt_b]
    ∧ matched_entry shirt_b 5 white_top_slot
      = Matched (item_id w) (description w) (type w) (color w) (fabric w)
          (mr_score (matched_entry shirt_b 5 white_top_slot))
          (mr_suggestion (matched_entry shirt_b 5 white_top_slot))
    ∧ item_id w = "B"
    ∧ normalize (Some (type w))
      = normalize (sg_type (mr_suggestion (matched_entry shirt_b 5 white_top_slot)))
    ∧ Num.gt (mr_score (matched_entry shirt_b 5 white_top_slot)) (-1) = true.
Proof.
  apply (matched_entry_is_wardrobe_item two_shirts [shirt_a; shirt_b] [two_shirts_match]
           two_shirts_match (matched_entry shirt_b 5 white_top_slot) "B").
  - reflexivity.
  - apply list_elem_of_here.
  - apply list_elem_of_further, list_elem_of_here.
  - reflexivity.
Defined.

(** X8. Over all the outfits of one call, the matcher fills at most as
    many slots as the wardrobe has items. *)
Theorem matched_slots_bounded_by_wardrobe (outfit_suggestion : OutfitSuggestion)
    (wardrobe : list WardrobeItem) (rs : list OutfitMatch) :
  match_outfit_with_wardrobe outfit_suggestion wardrobe = Ok (OutfitMatches rs) →
  (length (all_assigned_ids rs) ≤ length wardrobe)%nat.
Proof.
  intros H. pose proof (matcher_ids_NoDup _ _ _ H) as Hnd.
  apply matcher_filled in H as (outfits & _ & Hall).
  rewrite <- (length_fmap item_id wardrobe).
  apply submseteq_length, NoDup_submseteq; [exact Hnd|].
  intros id Hid. apply list_elem_of_bind in Hid as (r & Hid & Hr).
  apply list_elem_of_omap in Hid as (m & Hm & Hid).
  apply list_elem_of_lookup in Hr as [k Hr].
  destruct (Forall2_lookup_r _ _ _ _ _ Hall Hr) as (o & _ & items & _ & _ & Hslots).
  apply list_elem_of_lookup in Hm as [p Hm].
  destruct (Forall2_lookup_r _ _ _ _ _ Hslots Hm)
    as (item & _ & [-> | (w & score & ty & Hw & -> & _)]); [discriminate|].
  injection Hid as <-. by apply list_elem_of_fmap_2.
Qed.

Lemma matched_slots_bounded_by_wardrobe_witness :
  (length (all_assigned_ids same_top_twice_matches) ≤ length [white_top])%nat.
Proof.
  apply (matched_slots_bounded_by_wardrobe same_top_twice [white_top]
           same_top_twice_matches).
  reflexivity.
Defined.

(** ** The selection of the best outfit *)

Lemma max_loop_first_max (l : list OutfitMatch) (best : OutfitMatch) :
  ∃ pre post,
    best :: l = (pre ++ max_loop l best :: post)%list
    ∧ ((pre = [] ∧ max_loop l best = best)
       ∨ Num.gt (total_score (max_loop l best)) (total_score best) = true)
    ∧ (∀ x, x ∈ pre → (total_score (max_loop l best) <=? total_score x)%float = false)
    ∧ (∀ x, x ∈ post → Num.gt (total_score x) (total_score (max_loop l best)) = false).
Proof.
  revert best. induction l as [|x l IH]; intros best; cbn [max_loop].
  - exists [], []. split; [done|]. split; [by left|].
    split; intros x Hx; by apply elem_of_nil in Hx.
  - destruct (Num.gt (total_score x) (total_score best)) eqn:Hgt.
    + destruct (IH x) as (pre & post & Heq & Hup & Hpre & Hpost).
      assert (Hbest : Num.gt (total_score (max_loop l x)) (total_score best) = true).
      { destruct Hup as [[_ ->] | Hup]; [done | by apply (gt_trans _ _ _ Hup)]. }
      exists (best :: pre), post. split; [by rewrite Heq|]. split; [by right|].
      split; [|exact Hpost].
      intros y Hy. apply elem_of_cons in Hy as [-> | Hy]; [|by apply Hpre].
      by apply gt_not_leb.
    + destruct (IH best) as (pre & post & Heq & Hup & Hpre & Hpost).
      destruct pre as [|b pre].
      * injection Heq as Heq Hl. subst post. exists [], (x :: l).
        split; [by rewrite <- Heq|]. split; [by left|].
        split; [intros y Hy; by apply elem_of_nil in Hy|].
        intros y Hy. apply elem_of_cons in Hy as [-> | Hy]; [by rewrite <- Heq|].
        by apply Hpost.
      * injection Heq as <- Hl. destruct Hup as [[[=] _] | Hup].
        exists (best :: x :: pre), post.
        split; [cbn; do 2 f_equal; exact Hl|]. split; [by right|].
        split; [|exact Hpost].
        intros y Hy. apply elem_of_cons in Hy as [-> | Hy];
          [apply Hpre, list_elem_of_here|].
        apply elem_of_cons in Hy as [-> | Hy];
          [|by apply Hpre, list_elem_of_further].
        destruct (_ <=? _)%float eqn:Hle; [|done].
        by rewrite (gt_leb_trans _ _ _ Hup Hle) in Hgt.
Qed.

(** X9. The outfit match the selection step picks is the first one with
    the maximal total score: no outfit match after it in the list has a
    greater total score, and none before it has one as great. *)
Theorem highest_score_first_maximum (rs : list OutfitMatch) (r : OutfitMatch) :
  highest_score (OutfitMatches rs) = Ok r →
  ∃ pre post,
    rs = (pre ++ r :: post)%list
    ∧ (∀ x, x ∈ pre → (total_score r <=? total_score x)%float = false)
    ∧ (∀ x, x ∈ post → Num.gt (total_score x) (total_score r) = false).
Proof.
  destruct rs as [|x l]; [discriminate|]. intros [= <-].
  destruct (max_loop_first_max l x) as (pre & post & Heq & _ & Hpre & Hpost).
  by exists pre, post.
Qed.

Lemma highest_score_first_maximum_witness :
  ∃ pre post,
    same_top_twice_matches
    = (pre ++ {| outfit_name := "first"; total_score := 7;
                 matched_items := [matched_entry white_top 7 white_top_slot] |}
           :: post)%list
    ∧ (∀ x, x ∈ pre → (7 <=? total_score x)%float = false)
    ∧ (∀ x, x ∈ post → Num.gt (total_score x) 7 = false).
Proof.
  apply (highest_score_first_maximum same_top_twice_matches
           {| outfit_name := "first"; total_score := 7;
              matched_items := [matched_entry white_top 7 white_top_slot] |}).
  reflexivity.
Defined.

(** ** What [generate_outfit_recommendation] returns *)

Lemma generate_ok_inv (user_id occasion : string) (outfit_suggestion : OutfitSuggestion)
    (wardrobe : list WardrobeItem) (rec : Recommendation) :
  generate_outfit_recommendation user_id occasion outfit_suggestion wardrobe = Ok rec →
  ∃ rs r,
    match_outfit_with_wardrobe outfit_suggestion wardrobe = Ok (OutfitMatches rs)
    ∧ highest_score (OutfitMatches rs) = Ok r
    ∧ rec = {| user_id := user_id; occasion := occasion;
               outfit := filter (λ item, Some (item_id item)
                                          ∈ mr_item_id <$> matched_items r) wardrobe |}.
Proof.
  unfold generate_outfit_recommendation.
  destruct (empty_suggestion outfit_suggestion); [discriminate|].
  destruct (match_outfit_with_wardrobe outfit_suggestion wardrobe) as [[msg|rs]|e];
    cbn [mbind result_bind]; [discriminate | | discriminate].
  destruct (highest_score (OutfitMatches rs)) as [r|e] eqn:Hr;
    cbn [mbind result_bind]; [|discriminate].
  intros [= <-]. by exists rs, r.
Qed.

Lemma assigned_id_iff (ms : list MatchResult) (id : string) :
  Some id ∈ mr_item_id <$> ms ↔ id ∈ assigned_ids ms.
Proof.
  unfold assigned_ids. rewrite list_elem_of_fmap, list_elem_of_omap.
  split; intros (m & ? & ?); exists m; by split.
Qed.

Lemma highest_score_elem (rs : list OutfitMatch) (r : OutfitMatch) :
  highest_score (OutfitMatches rs) = Ok r → r ∈ rs.
Proof.
  destruct rs as [|x l]; [discriminate|]. intros [= <-]. apply max_loop_elem.
Qed.

(** X10. A recommendation that is returned repeats the user id and the
    occasion, and its outfit is made of exactly the wardrobe items whose
    id the selected outfit match assigns, in the order of the wardrobe:
    it is a sublist of the wardrobe, and every id the selected outfit
    match assigns is the id of one of its items. *)
Theorem recommendation_resolves_selected_outfit (uid occ : string)
    (outfit_suggestion : OutfitSuggestion) (wardrobe : list WardrobeItem)
    (rec : Recommendation) :
  generate_outfit_recommendation uid occ outfit_suggestion wardrobe = Ok rec →
  user_id rec = uid ∧ occasion rec = occ
  ∧ sublist (outfit rec) wardrobe
  ∧ ∃ rs r,
      match_outfit_with_wardrobe outfit_suggestion wardrobe = Ok (OutfitMatches rs)
      ∧ highest_score (OutfitMatches rs) = Ok r
      ∧ (∀ w, w ∈ outfit rec ↔
              w ∈ wardrobe ∧ item_id w ∈ assigned_ids (matched_items r))
      ∧ (∀ id, id ∈ assigned_ids (matched_items r) →
               ∃ w, w ∈ outfit rec ∧ item_id w = id).
Proof.
  intros H. apply generate_ok_inv in H as (rs & r & Hrun & Hr & ->). cbn.
  split; [done|]. split; [done|]. split; [apply sublist_filter|].
  exists rs, r. split; [done|]. split; [done|].
  assert (Hmem : ∀ w, w ∈ filter (λ item, Some (item_id item)
                                           ∈ mr_item_id <$> matched_items r) wardrobe
                 ↔ w ∈ wardrobe ∧ item_id w ∈ assigned_ids (matched_items r)).
  { intros w. rewrite list_elem_of_filter, assigned_id_iff. tauto. }
  split; [exact Hmem|].
  intros id Hid. apply matcher_filled in Hrun as (outfits & _ & Hall).
  pose proof (highest_score_elem _ _ Hr) as Hin.
  apply list_elem_of_lookup in Hin as [k Hk].
  destruct (Forall2_lookup_r _ _ _ _ _ Hall Hk) as (o & _ & items & _ & _ & Hslots).
  pose proof Hid as Hid'. apply list_elem_of_omap in Hid' as (m & Hm & Hmid).
  apply list_elem_of_lookup in Hm as [p Hm].
  destruct (Forall2_lookup_r _ _ _ _ _ Hslots Hm)
    as (item & _ & [-> | (w & score & ty & Hw & -> & _)]); [discriminate|].
  injection Hmid as <-. exists w. split; [|done]. by apply Hmem.
Qed.

Lemma recommendation_resolves_selected_outfit_witness :
  user_id {| user_id := "u1"; occasion := "office"; outfit := [white_top] |} = "u1"
  ∧ occasion {| user_id := "u1"; occasion := "office"; outfit := [white_top] |} = "office"
  ∧ sublist (outfit {| user_id := "u1"; occasion := "office"; outfit := [white_top] |})
            [blue_bottom; white_top]
  ∧ ∃ rs r,
      match_outfit_with_wardrobe same_top_twice [blue_bottom; white_top]
        = Ok (OutfitMatches rs)
      ∧ highest_score (OutfitMatches rs) = Ok r
      ∧ (∀ w, w ∈ outfit {| user_id := "u1"; occasion := "office"; outfit := [white_top] |}
              ↔ w ∈ [blue_bottom; white_top]
                ∧ item_id w ∈ assigned_ids (matched_items r))
      ∧ (∀ id, id ∈ assigned_ids (matched_items r) →
               ∃ w, w ∈ outfit {| user_id := "u1"; occasion := "office";
                                  outfit := [white_top] |}
                    ∧ item_id w = id).
Proof.
  apply (recommendation_resolves_selected_outfit "u1" "office" same_top_twice
           [blue_bottom; white_top]).
  reflexivity.
Defined.

(** X11. When the ids of the wardrobe are pairwise distinct, the outfit
    of a recommendation has one item per matched slot of the selected
    outfit match: its ids are those the outfit match assigns, each
    once. *)
Theorem recommendation_one_item_per_matched_slot (uid occ : string)
    (outfit_suggestion : OutfitSuggestion) (wardrobe : list WardrobeItem)
    (rec : Recommendation) :
  NoDup (item_id <$> wardrobe) →
  generate_outfit_recommendation uid occ outfit_suggestion wardrobe = Ok rec →
  ∃ rs r,
    match_outfit_with_wardrobe outfit_suggestion wardrobe = Ok (OutfitMatches rs)
    ∧ highest_score (OutfitMatches rs) = Ok r
    ∧ item_id <$> outfit rec ≡ₚ assigned_ids (matched_items r)
    ∧ length (outfit rec) = length (assigned_ids (matched_items r)).
Proof.
  intros Hnd H. apply generate_ok_inv in H as (rs & r & Hrun & Hr & ->). cbn.
  exists rs, r. split; [done|]. split; [done|].
  assert (Hperm : item_id <$> filter (λ item, Some (item_id item)
                                              ∈ mr_item_id <$> matched_items r) wardrobe
                  ≡ₚ assigned_ids (matched_items r)).
  { apply NoDup_Permutation.
    - eapply sublist_NoDup; [exact Hnd | apply fmap_sublist, sublist_filter].
    - apply (NoDup_bind_each (λ r, assigned_ids (matched_items r)) rs r);
        [by eapply matcher_ids_NoDup | by eapply highest_score_elem].
    - intros id. rewrite list_elem_of_fmap. split.
      + intros (w & -> & Hw). apply list_elem_of_filter in Hw as [Hw _].
        by apply assigned_id_iff.
      + intros Hid. apply matcher_filled in Hrun as (outfits & _ & Hall).
        pose proof (highest_score_elem _ _ Hr) as Hin.
        apply list_elem_of_lookup in Hin as [k Hk].
        destruct (Forall2_lookup_r _ _ _ _ _ Hall Hk)
          as (o & _ & items & _ & _ & Hslots).
        pose proof Hid as Hid'. apply list_elem_of_omap in Hid' as (m & Hm & Hmid).
        apply list_elem_of_lookup in Hm as [p Hm].
        destruct (Forall2_lookup_r _ _ _ _ _ Hslots Hm)
          as (item & _ & [-> | (w & score & ty & Hw & -> & _)]); [discriminate|].
        injection Hmid as <-. exists w. split; [done|].
        apply list_elem_of_filter. split; [by apply assigned_id_iff | done]. }
  split; [exact Hperm|].
  rewrite <- (length_fmap item_id). by apply Permutation_length.
Qed.

Lemma recommendation_one_item_per_matched_slot_witness :
  ∃ rs r,
    match_outfit_with_wardrobe two_shirts [shirt_b; shirt_a] = Ok (OutfitMatches rs)
    ∧ highest_score (OutfitMatches rs) = Ok r
    ∧ item_id <$> outfit {| user_id := "u1"; occasion := "office";
                            outfit := [shirt_b; shirt_a] |}
      ≡ₚ assigned_ids (matched_items r)
    ∧ length (outfit {| user_id := "u1"; occasion := "office";
                        outfit := [shirt_b; shirt_a] |})
      = length (assigned_ids (matched_items r)).
Proof.
  apply (recommendation_one_item_per_matched_slot "u1" "office" two_shirts
           [shirt_b; shirt_a]).
  - apply NoDup_cons. split; [|apply NoDup_singleton].
    intros Hin. apply list_elem_of_singleton in Hin. discriminate Hin.
  - reflexivity.
Defined.

(** Without distinct ids the outfit can hold more items than the outfit
    match has matched slots: every item that carries an assigned id is
    returned. *)
Example duplicate_ids_are_all_returned :
  generate_outfit_recommendation "u1" "office"
    (mk_suggestion [mk_outfit "casual" [white_top_slot]]) [white_top; white_top_copy]
  = Ok {| user_id := "u1"; occasion := "office";
          outfit := [white_top; white_top_copy] |}.
Proof. reflexivity. Qed.

(** A suggestion with at least one candidate outfit, all of them well
    formed, is answered with a recommendation. *)
Lemma generate_well_formed (uid occ : string) (keys : list string)
    (outfits : list Outfit) (wardrobe : list WardrobeItem) :
  outfits ≠ [] → Forall well_formed_outfit outfits →
  ∃ rec,
    generate_outfit_recommendation uid occ
      {| outfit_recommendations := Some outfits; other_keys := keys |} wardrobe
    = Ok rec.
Proof.
  intros Hne Hall. unfold generate_outfit_recommendation, match_outfit_with_wardrobe.
  cbn [empty_suggestion outfit_recommendations].
  destruct (match_outfits_total outfits wardrobe [] ∅ Hall) as (rs & -> & Hlen).
  cbn [mbind result_bind]. destruct rs as [|r rs]; [|by eexists].
  destruct outfits; [done | discriminate].
Qed.

(** The ways in which the recommendation step fails on such a
    suggestion. *)
Lemma generate_raises (uid occ : string) (outfit_suggestion : OutfitSuggestion)
    (wardrobe : list WardrobeItem) (e : exn) :
  generate_outfit_recommendation uid occ outfit_suggestion wardrobe = Raise e →
  (e = BadRequestError "outfit_suggestion" "Failed to generate outfit suggestion"
   ∧ empty_suggestion outfit_suggestion = true)
  ∨ (empty_suggestion outfit_suggestion = false
     ∧ ((e = TypeError
         ∧ ∃ msg, match_outfit_with_wardrobe outfit_suggestion wardrobe
                  = Ok (ErrorDict msg))
        ∨ (e = ValueError ∧ outfit_recommendations outfit_suggestion = Some [])
        ∨ ((e = KeyError "type" ∨ e = KeyError "outfit_name")
           ∧ match_outfit_with_wardrobe outfit_suggestion wardrobe = Raise e))).
Proof.
  unfold generate_outfit_recommendation.
  destruct (empty_suggestion outfit_suggestion); [intros [= <-]; by left|].
  intros Hrun'. right. split; [done|]. revert Hrun'.
  destruct (match_outfit_with_wardrobe outfit_suggestion wardrobe)
    as [[msg|rs]|e'] eqn:Hrun; cbn [mbind result_bind highest_score].
  - intros [= <-]. left. split; [done|]. by exists msg.
  - destruct rs as [|r rs]; [|discriminate]. intros [= <-]. right; left.
    split; [done|]. unfold match_outfit_with_wardrobe in Hrun.
    destruct (outfit_recommendations outfit_suggestion) as [outfits|]; [|discriminate].
    apply match_outfits_spec in Hrun as (new & Hnew & Hlen & _).
    destruct new; [|discriminate]. by destruct outfits.
  - intros [= <-]. right; right. split; [|done].
    unfold match_outfit_with_wardrobe in Hrun.
    destruct (outfit_recommendations outfit_suggestion) as [outfits|]; [|discriminate].
    by apply match_outfits_raises in Hrun.
Qed.

(** ** The answers of the endpoint *)



(** ** The similarity as a fraction *)

Lemma blocks_size_app (blocks : list SequenceMatcher.Match) (i j k : nat) :
  blocks_size (blocks ++ [(i, j, k)]) = (blocks_size blocks + k)%nat.
Proof.
  induction blocks as [|[[i' j'] k'] blocks IH]; cbn; [lia|].
  fold (blocks_size (blocks ++ [(i, j, k)])) (blocks_size blocks). lia.
Qed.

Lemma windows_room_cons (alo ahi blo bhi : nat) (queue : list (nat * nat * nat * nat)) :
  windows_room ((alo, ahi, blo, bhi) :: queue)
  = (Nat.min (ahi - alo) (bhi - blo) + windows_room queue)%nat.
Proof. reflexivity. Qed.

(** The blocks found and the room left in the work list never add up to
    more than they did at the start. *)
Lemma blocks_loop_size (a b : list ascii) (fuel bound : nat)
    (queue : list (nat * nat * nat * nat)) (matching_blocks : list SequenceMatcher.Match) :
  Forall SequenceMatcher.window_ok queue →
  (blocks_size matching_blocks + windows_room queue ≤ bound)%nat →
  (blocks_size (SequenceMatcher.blocks_loop a b fuel queue matching_blocks) ≤ bound)%nat.
Proof.
  revert queue matching_blocks.
  induction fuel as [|fuel IH]; intros queue matching_blocks Hok Hbound.
  - destruct queue; cbn [SequenceMatcher.blocks_loop]; lia.
  - destruct queue as [|[[[alo ahi] blo] bhi] queue];
      [cbn [SequenceMatcher.blocks_loop]; lia|].
    cbn [SequenceMatcher.blocks_loop]. apply Forall_cons in Hok as [[Ha Hb] Hok].
    pose proof (find_longest_match_within a b alo ahi blo bhi Ha Hb) as Hm.
    destruct (SequenceMatcher.find_longest_match a b alo ahi blo bhi) as [[i j] k].
    cbn in Hm. rewrite windows_room_cons in Hbound.
    destruct (Nat.eqb_spec k 0) as [-> | Hk]; [apply IH; [done | lia]|].
    apply IH.
    + destruct (_ && _), (_ && _); repeat (apply Forall_cons; split); try done;
        cbn; lia.
    + rewrite blocks_size_app.
      destruct (Nat.ltb_spec alo i), (Nat.ltb_spec blo j),
        (Nat.ltb_spec (i + k) ahi), (Nat.ltb_spec (j + k) bhi); cbn [andb];
        rewrite ?windows_room_cons; lia.
Qed.

Lemma matched_chars_bound (a b : list ascii) :
  (matched_chars a b ≤ Nat.min (length a) (length b))%nat.
Proof.
  unfold matched_chars, SequenceMatcher.get_matching_blocks.
  apply (blocks_loop_size a b).
  - constructor; [cbn; lia | constructor].
  - cbn. lia.
Qed.

(** X15. For two non-empty texts the similarity is the float quotient
    [2.0 * M / T] (1.0 when [T = 0]) of two integers: [T] is the total
    length of the two normal forms and [M], the number of matched
    characters, is at most the length of the shorter normal form, so
    that [2 * M <= T]: as a fraction the similarity lies between 0 and
    1. *)
Theorem similarity_is_a_fraction (text1 text2 : option string) :
  truthy text1 = true → truthy text2 = true →
  ∃ M T : nat,
    get_text_similarity text1 text2 = SequenceMatcher._calculate_ratio M T
    ∧ T = (String.length (normalize text1) + String.length (normalize text2))%nat
    ∧ (M ≤ Nat.min (String.length (normalize text1)) (String.length (normalize text2)))%nat
    ∧ (2 * M ≤ T)%nat.
Proof.
  intros H1 H2.
  pose proof (matched_chars_bound (list_ascii_of_string (normalize text1))
                (list_ascii_of_string (normalize text2))) as Hbound.
  assert (Hlen : ∀ s, length (list_ascii_of_string s) = String.length s).
  { intros s. induction s as [|c s IH]; cbn; [done | by rewrite IH]. }
  rewrite !Hlen in Hbound.
  exists (matched_chars (list_ascii_of_string (normalize text1))
                        (list_ascii_of_string (normalize text2))),
         (String.length (normalize text1) + String.length (normalize text2))%nat.
  split; [|split; [done|split; [done | lia]]].
  unfold get_text_similarity, SequenceMatcher.ratio. by rewrite H1, H2, !Hlen.
Qed.

Lemma similarity_is_a_fraction_witness :
  ∃ M T : nat,
    get_text_similarity (Some "White Shirt") (Some "white t-shirt")
      = SequenceMatcher._calculate_ratio M T
    ∧ T = (String.length (normalize (Some "White Shirt"))
           + String.length (normalize (Some "white t-shirt")))%nat
    ∧ (M ≤ Nat.min (String.length (normalize (Some "White Shirt")))
                   (String.length (normalize (Some "white t-shirt"))))%nat
    ∧ (2 * M ≤ T)%nat.
Proof.
  apply (similarity_is_a_fraction (Some "White Shirt") (Some "white t-shirt"));
    reflexivity.
Defined.

(** ** The values of a score *)

(** X16. A score is -1, when the types differ, or the sum of one of the
    eight attribute values 1, 3, 4, 5, 6, 7, 8, 10 and of 1.5 times the
    similarity of the two descriptions: nothing but the description
    moves a score off these values, and the attribute part is at most
    10. *)
Theorem get_match_score_values (summary_item : SuggestedItem)
    (wardrobe_item : WardrobeItem) :
  (type_matches summary_item wardrobe_item = false
   ∧ get_match_score summary_item wardrobe_item = (-1)%float)
  ∨ (type_matches summary_item wardrobe_item = true
     ∧ ∃ base,
         base ∈ attribute_scores
         ∧ get_match_score summary_item wardrobe_item
           = (base + get_text_similarity (description wardrobe_item)
                       (get_or_empty summary_item "description") * 1.5)%float).
Proof.
  unfold get_match_score.
  destruct (type_matches summary_item wardrobe_item); [right | by left].
  split; [done|]. cbn [negb].
  unfold add_description, add_fabric, add_pattern, add_color, attribute_scores.
  destruct (String.eqb _ _), (String.eqb _ _), (_ && _ && _);
    (eexists; split; [|reflexivity]);
    match goal with
    | |- ?x ∈ _ => let y := eval vm_compute in x in change x with y
    end;
    repeat first [apply list_elem_of_here | apply list_elem_of_further].
Qed.

(** ** The penalty *)

Lemma penalize_unrelated (matching_set_items : list WardrobeItem) (item : WardrobeItem)
    (score : float) :
  Forall (λ matched_item,
            truthy (description item) = false
            ∨ truthy (description matched_item) = false) matching_set_items →
  penalize matching_set_items item score = score.
Proof.
  intros Hall. revert score.
  induction Hall as [|matched_item rest Hm _ IH]; intros score; cbn [penalize]; [done|].
  rewrite (get_text_similarity_falsy _ _ Hm). apply IH.
Qed.

(** X17. An item without a description is never penalized, and items
    already matched that have no description penalize nothing: in both
    cases the score the item competes with is its match score. *)
Theorem no_description_no_penalty (suggested_item : SuggestedItem)
    (item : WardrobeItem) (matching_set_items : list WardrobeItem) :
  truthy (description item) = false
  ∨ Forall (λ matched_item, truthy (description matched_item) = false)
      matching_set_items →
  adjusted_score suggested_item item matching_set_items
  = get_match_score suggested_item item.
Proof.
  intros H. unfold adjusted_score.
  destruct (nonempty_list matching_set_items && _); [|done].
  apply penalize_unrelated. destruct H as [H | H].
  - apply Forall_forall. intros m _. by left.
  - eapply Forall_impl; [exact H|]. intros m Hm. by right.
Qed.

Lemma no_description_no_penalty_witness :
  adjusted_score white_top_slot white_top [shirt_a; shirt_b]
  = get_match_score white_top_slot white_top.
Proof.
  apply (no_description_no_penalty white_top_slot white_top [shirt_a; shirt_b]).
  left. reflexivity.
Defined.

(** * The matcher on a parsed suggestion of any shape *)

(** ** On a string or [None] the functions of [Dyn] are those above *)

Lemma normalize_of_text (text : option string) :
  Dyn.normalize (Dyn.of_text text) = Dyn.Returns (normalize text).
Proof. by destruct text as [[|c s]|]. Qed.

Lemma normalize_str (s : string) :
  Dyn.normalize (Dyn.JStr s) = Dyn.Returns (normalize (Some s)).
Proof. apply (normalize_of_text (Some s)). Qed.

Lemma truth_of_text (text : option string) :
  Dyn.truth (Dyn.of_text text) = truthy text.
Proof. by destruct text as [[|c s]|]. Qed.

Lemma get_text_similarity_of_text (text1 text2 : option string) :
  Dyn.get_text_similarity (Dyn.of_text text1) (Dyn.of_text text2)
  = Dyn.Returns (get_text_similarity text1 text2).
Proof.
  unfold Dyn.get_text_similarity, get_text_similarity.
  rewrite !truth_of_text.
  destruct (negb (truthy text1) || negb (truthy text2)); [done|].
  by rewrite !normalize_of_text.
Qed.

Lemma penalize_sim (matching_set_items : list WardrobeItem) (item : WardrobeItem)
    (score : float) :
  Dyn.penalize matching_set_items item score
  = Dyn.Returns (penalize matching_set_items item score).
Proof.
  revert score. induction matching_set_items as [|m rest IH]; intros score; [done|].
  cbn [Dyn.penalize penalize]. rewrite get_text_similarity_of_text. cbn. apply IH.
Qed.

(** ** On a suggestion of the typed shape the two matchers agree *)

Lemma bind_returns {A B : Type} (a : A) (k : A → Dyn.run B) :
  (Dyn.Returns a ≫= k) = k a.
Proof. reflexivity. Qed.

Ltac in_keys := repeat first [apply list_elem_of_here | apply list_elem_of_further].

Lemma get_slot (v : Dyn.Json) (item : SuggestedItem) (key : string)
    (dflt : option string) :
  is_slot v item → key ∈ Dyn.attribute_keys →
  Dyn.get v key (Dyn.of_text dflt)
  = Dyn.Returns (Dyn.of_text (default dflt (item !! key))).
Proof.
  intros (items & -> & H) Hkey. cbn. rewrite (H key Hkey). by destruct (item !! key).
Qed.

Lemma get_slot_empty (v : Dyn.Json) (item : SuggestedItem) (key : string) :
  is_slot v item → key ∈ Dyn.attribute_keys →
  Dyn.get v key (Dyn.JStr "") = Dyn.Returns (Dyn.of_text (get_or_empty item key)).
Proof. apply (get_slot v item key (Some "")). Qed.

Lemma getitem_slot (v : Dyn.Json) (item : SuggestedItem) (key : string) :
  is_slot v item → key ∈ Dyn.attribute_keys →
  Dyn.getitem v key
  = match item !! key with
    | Some text => Dyn.Returns (Dyn.of_text text)
    | None => Dyn.Raises (Dyn.Exn (KeyError key))
    end.
Proof.
  intros (items & -> & H) Hkey. cbn. rewrite (H key Hkey). by destruct (item !! key).
Qed.

Ltac slot_steps H :=
  repeat
    (first
       [ rewrite (get_slot_empty _ _ _ H) by in_keys
       | rewrite (get_slot _ _ _ _ H) by in_keys
       | rewrite normalize_str
       | rewrite normalize_of_text
       | rewrite get_text_similarity_of_text
       | rewrite bind_returns ];
     cbv beta).

Lemma get_match_score_sim (v : Dyn.Json) (item : SuggestedItem) (w : WardrobeItem) :
  is_slot v item →
  Dyn.get_match_score v w = Dyn.Returns (get_match_score item w).
Proof.
  intros Hv. unfold Dyn.get_match_score, get_match_score, type_matches, summary_type.
  slot_steps Hv.
  by destruct (String.eqb _ _).
Qed.

Lemma adjusted_score_sim (v : Dyn.Json) (item : SuggestedItem) (w : WardrobeItem)
    (matching_set_items : list WardrobeItem) :
  is_slot v item →
  Dyn.adjusted_score v w matching_set_items
  = Dyn.Returns (adjusted_score item w matching_set_items).
Proof.
  intros Hv. unfold Dyn.adjusted_score, adjusted_score.
  rewrite (get_match_score_sim _ _ _ Hv), bind_returns.
  destruct (_ && _); [apply penalize_sim | done].
Qed.

Lemma best_match_loop_sim (v : Dyn.Json) (item : SuggestedItem)
    (items : list WardrobeItem) (used_items : gset string)
    (matching_set_items : list WardrobeItem) (best : option WardrobeItem)
    (highest : float) :
  is_slot v item →
  Dyn.best_match_loop v items used_items matching_set_items best highest
  = lift id (best_match_loop item items used_items matching_set_items best highest).
Proof.
  intros Hv. revert best highest.
  induction items as [|w rest IH]; intros best highest; [done|].
  cbn [Dyn.best_match_loop best_match_loop].
  destruct (decide _); [apply IH|].
  rewrite (getitem_slot _ _ _ Hv) by in_keys.
  destruct (item !! "type") as [suggested_type|]; [|done].
  rewrite bind_returns, normalize_str, bind_returns, normalize_of_text, bind_returns.
  destruct (String.eqb _ _); [|apply IH].
  rewrite (adjusted_score_sim _ _ _ _ Hv), bind_returns.
  destruct (Num.gt _ _); apply IH.
Qed.

Lemma suggestion_of_sim (v : Dyn.Json) (item : SuggestedItem) :
  is_slot v item →
  Dyn.suggestion_of v = Dyn.Returns (dyn_suggestion (suggestion_of item)).
Proof.
  intros Hv. unfold Dyn.suggestion_of.
  slot_steps Hv. reflexivity.
Qed.

Lemma matched_entry_sim (v : Dyn.Json) (item : SuggestedItem) (best : WardrobeItem)
    (score : float) :
  is_slot v item →
  Dyn.matched_entry best score v = Dyn.Returns (dyn_entry (matched_entry best score item)).
Proof.
  intros Hv. unfold Dyn.matched_entry. by rewrite (suggestion_of_sim _ _ Hv).
Qed.

Lemma no_match_entry_sim (v : Dyn.Json) (item : SuggestedItem) :
  is_slot v item →
  Dyn.no_match_entry v = Dyn.Returns (dyn_entry (no_match_entry item)).
Proof.
  intros Hv. unfold Dyn.no_match_entry.
  rewrite (suggestion_of_sim _ _ Hv). slot_steps Hv. reflexivity.
Qed.

Lemma match_slots_sim (vs : list Dyn.Json) (clothing_items : list SuggestedItem)
    (wardrobe : list WardrobeItem) (st : SlotState) :
  Forall2 is_slot vs clothing_items →
  Dyn.match_slots vs wardrobe (dyn_state st)
  = lift dyn_state (match_slots clothing_items wardrobe st).
Proof.
  intros Hvs. revert st.
  induction Hvs as [|v item vs clothing_items Hv _ IH]; intros st; [done|].
  cbn [Dyn.match_slots match_slots].
  unfold Dyn.find_best_match, find_best_match. cbn [dyn_state Dyn.st_used_items
    Dyn.st_matched_items_objects Dyn.st_matched_items Dyn.st_total_score].
  rewrite (best_match_loop_sim _ _ _ _ _ _ _ Hv).
  destruct (best_match_loop _ _ _ _ _ _) as [[[best|] score]|e]; cbn; [| |done].
  - rewrite (matched_entry_sim _ _ _ _ Hv), bind_returns, <- IH.
    unfold dyn_state. cbn. by rewrite fmap_app.
  - rewrite (no_match_entry_sim _ _ Hv), bind_returns, <- IH.
    unfold dyn_state. cbn. by rewrite fmap_app.
Qed.

Lemma match_outfits_sim (vs : list Dyn.Json) (outfits : list Outfit)
    (wardrobe : list WardrobeItem) (acc : list OutfitMatch) (used_items : gset string) :
  Forall2 is_outfit vs outfits →
  Dyn.match_outfits vs wardrobe (dyn_match <$> acc) used_items
  = lift dyn_output (match_outfits outfits wardrobe acc used_items).
Proof.
  intros Hvs. revert acc used_items.
  induction Hvs as [|v o vs outfits (items & -> & Hname & Hitems) _ IH];
    intros acc used_items; [done|].
  cbn [Dyn.match_outfits match_outfits Dyn.contains Dyn.getitem].
  destruct (Dyn.lookup_key "clothing_items" items) as [x|].
  2:{ by rewrite Hitems. }
  destruct Hitems as (slots & clothing_items & -> & -> & Hslots).
  rewrite bind_returns. cbn [negb]. rewrite Hname.
  destruct (o_outfit_name o) as [name|]; [|done].
  cbn [fmap option_fmap option_map]. rewrite !bind_returns. cbn [Dyn.iter].
  rewrite bind_returns.
  change {| Dyn.st_matched_items := []; Dyn.st_matched_items_objects := [];
            Dyn.st_total_score := 0; Dyn.st_used_items := used_items |}
    with (dyn_state {| st_matched_items := []; st_matched_items_objects := [];
                       st_total_score := 0; st_used_items := used_items |}).
  rewrite (match_slots_sim slots clothing_items wardrobe _ Hslots).
  destruct (match_slots clothing_items wardrobe _) as [st|e]; cbn; [|done].
  rewrite <- IH. by rewrite fmap_app.
Qed.

Lemma match_outfit_with_wardrobe_sim (v : Dyn.Json) (s : OutfitSuggestion)
    (wardrobe : list WardrobeItem) :
  is_suggestion v s →
  Dyn.match_outfit_with_wardrobe v wardrobe
  = lift dyn_output (match_outfit_with_wardrobe s wardrobe).
Proof.
  intros (items & -> & _ & Hrecs).
  unfold Dyn.match_outfit_with_wardrobe, match_outfit_with_wardrobe.
  cbn [Dyn.contains Dyn.getitem].
  destruct (Dyn.lookup_key "outfit_recommendations" items) as [x|].
  2:{ by rewrite Hrecs. }
  destruct Hrecs as (outfits & os & -> & -> & Houtfits).
  rewrite !bind_returns. cbn [negb Dyn.iter]. rewrite bind_returns.
  apply (match_outfits_sim outfits os wardrobe [] ∅ Houtfits).
Qed.

Lemma max_loop_sim (l : list OutfitMatch) (best : OutfitMatch) :
  Dyn.max_loop (dyn_match <$> l) (dyn_match best) = dyn_match (max_loop l best).
Proof.
  revert best. induction l as [|x l IH]; intros best; [done|].
  cbn [Dyn.max_loop max_loop fmap list_fmap].
  change (Dyn.total_score (dyn_match x)) with (total_score x).
  change (Dyn.total_score (dyn_match best)) with (total_score best).
  destruct (Num.gt _ _); apply IH.
Qed.

Lemma highest_score_sim (out : MatcherOutput) :
  Dyn.highest_score (dyn_output out) = lift dyn_match (highest_score out).
Proof.
  destruct out as [msg|[|x l]]; [done..|].
  cbn. by rewrite max_loop_sim.
Qed.

Lemma mr_item_id_sim (m : MatchResult) : Dyn.mr_item_id (dyn_entry m) = mr_item_id m.
Proof. by destruct m. Qed.

Lemma generate_sim (uid occ : string) (v : Dyn.Json) (s : OutfitSuggestion)
    (wardrobe : list WardrobeItem) :
  is_suggestion v s →
  Dyn.generate_outfit_recommendation uid occ v wardrobe
  = lift id (generate_outfit_recommendation uid occ s wardrobe).
Proof.
  intros Hv. unfold Dyn.generate_outfit_recommendation, generate_outfit_recommendation.
  pose proof Hv as (items & Heq & Htruth & Hrecs).
  rewrite Htruth, negb_involutive.
  destruct (empty_suggestion s); [done|].
  rewrite (match_outfit_with_wardrobe_sim v s wardrobe Hv).
  destruct (match_outfit_with_wardrobe s wardrobe) as [out|e]; cbn; [|done].
  rewrite highest_score_sim.
  destruct (highest_score out) as [r|e]; cbn; [|done].
  cbn [dyn_match Dyn.matched_items]. rewrite <- list_fmap_compose.
  rewrite (list_fmap_ext (Dyn.mr_item_id ∘ dyn_entry) mr_item_id (matched_items r))
    by (intros _ m _; apply mr_item_id_sim).
  reflexivity.
Qed.

(** ** A suggestion with the expected types has the typed shape *)

Lemma slot_view_lookup_in (items : list (string * Dyn.Json)) (keys : list string)
    (key : string) :
  foldr (λ key m, match Dyn.lookup_key key items ≫= as_text with
                  | Some text => <[key := text]> m
                  | None => m
                  end) (∅ : SuggestedItem) keys !! key
  = if bool_decide (key ∈ keys) then Dyn.lookup_key key items ≫= as_text else None.
Proof.
  induction keys as [|k keys IH]; [done|].
  cbn [foldr]. destruct (decide (k = key)) as [->|Hne].
  - rewrite bool_decide_eq_true_2 by apply list_elem_of_here.
    destruct (Dyn.lookup_key key items ≫= as_text) as [text|] eqn:Hlook.
    + by rewrite lookup_insert_eq.
    + rewrite IH. by destruct (bool_decide _).
  - assert (bool_decide (key ∈ k :: keys) = bool_decide (key ∈ keys)) as ->.
    { apply bool_decide_ext. rewrite elem_of_cons. split; [by intros [->|]|by right]. }
    destruct (Dyn.lookup_key k items ≫= as_text); [|done].
    by rewrite lookup_insert_ne.
Qed.

Lemma slot_view_lookup (items : list (string * Dyn.Json)) (key : string) :
  key ∈ Dyn.attribute_keys →
  slot_view (Dyn.JDict items) !! key = Dyn.lookup_key key items ≫= as_text.
Proof.
  intros Hkey. unfold slot_view. rewrite slot_view_lookup_in.
  by rewrite bool_decide_eq_true_2.
Qed.

Lemma of_text_as_text (x : Dyn.Json) :
  Dyn.text_or_null x = true → Dyn.of_text <$> as_text x = Some x.
Proof. by destruct x. Qed.

Lemma typed_slot_is_slot (v : Dyn.Json) :
  Dyn.typed_slot v = true → is_slot v (slot_view v).
Proof.
  destruct v as [| | | | | |items]; try discriminate.
  intros Htyped. exists items. split; [done|]. intros key Hkey.
  rewrite (slot_view_lookup items key Hkey).
  unfold Dyn.typed_slot in Htyped. rewrite forallb_forall in Htyped.
  specialize (Htyped key (proj1 (list_elem_of_In _ _) Hkey)).
  destruct (Dyn.lookup_key key items) as [x|]; [|done].
  cbn. rewrite <- (of_text_as_text x Htyped). by destruct (as_text x).
Qed.

Lemma typed_slots_are_slots (slots : list Dyn.Json) :
  forallb Dyn.typed_slot slots = true → Forall2 is_slot slots (slot_view <$> slots).
Proof.
  induction slots as [|v slots IH]; cbn; [constructor|].
  intros [Hv Hslots]%andb_prop. constructor; [by apply typed_slot_is_slot | by apply IH].
Qed.

Lemma typed_outfit_is_outfit (v : Dyn.Json) :
  Dyn.typed_outfit v = true → is_outfit v (outfit_view v).
Proof.
  destruct v as [| | | | | |items]; try discriminate.
  cbn [Dyn.typed_outfit]. intros [Hname Hitems]%andb_prop.
  exists items. split; [done|]. cbn [outfit_view o_outfit_name o_clothing_items]. split.
  - by destruct (Dyn.lookup_key "outfit_name" items) as [[]|].
  - destruct (Dyn.lookup_key "clothing_items" items) as [[| | | | |slots|]|];
      try discriminate; [|done].
    exists slots, (slot_view <$> slots). by auto using typed_slots_are_slots.
Qed.

Lemma typed_outfits_are_outfits (outfits : list Dyn.Json) :
  forallb Dyn.typed_outfit outfits = true →
  Forall2 is_outfit outfits (outfit_view <$> outfits).
Proof.
  induction outfits as [|v outfits IH]; cbn; [constructor|].
  intros [Hv Houtfits]%andb_prop.
  constructor; [by apply typed_outfit_is_outfit | by apply IH].
Qed.

Lemma typed_suggestion_is_suggestion (v : Dyn.Json) :
  Dyn.typed_suggestion v = true → is_suggestion v (suggestion_view v).
Proof.
  destruct v as [| | | | | |items]; try discriminate.
  cbn [Dyn.typed_suggestion]. intros Htyped.
  exists items. split; [done|]. split.
  - unfold empty_suggestion. cbn [suggestion_view outfit_recommendations other_keys Dyn.truth].
    destruct items as [|[k x] items]; [done|].
    cbn [Dyn.lookup_key] in *. cbn [fmap list_fmap fst].
    destruct (String.eqb_spec k "outfit_recommendations") as [->|Hne].
    + by destruct x as [| | | | |outfits|]; try discriminate.
    + rewrite filter_cons_True by done.
      by destruct (Dyn.lookup_key _ items) as [[]|].
  - cbn [suggestion_view outfit_recommendations].
    destruct (Dyn.lookup_key "outfit_recommendations" items) as [[| | | | |outfits|]|];
      try discriminate; [|done].
    exists outfits, (outfit_view <$> outfits). by auto using typed_outfits_are_outfits.
Qed.

Lemma complete_outfit_well_formed (v : Dyn.Json) :
  Dyn.complete_outfit v = true → well_formed_outfit (outfit_view v).
Proof.
  unfold Dyn.complete_outfit.
  intros [[[Htyped Hname]%andb_prop Hitems]%andb_prop Hslots]%andb_prop.
  destruct v as [| | | | | |items]; try discriminate.
  cbn [Dyn.typed_outfit Dyn.has_key Dyn.slots_of] in *.
  apply andb_prop in Htyped as [Htn Hts].
  unfold well_formed_outfit. cbn [outfit_view o_outfit_name o_clothing_items].
  destruct (Dyn.lookup_key "outfit_name" items) as [[| | | |name| |]|]; try discriminate.
  split; [by eexists|].
  destruct (Dyn.lookup_key "clothing_items" items) as [[| | | | |slots|]|];
    try discriminate.
  eexists. split; [reflexivity|].
  apply Forall_fmap, Forall_forall. intros slot Hin.
  rewrite forallb_forall in Hts, Hslots.
  apply list_elem_of_In in Hin.
  specialize (Hts slot Hin). specialize (Hslots slot Hin).
  destruct slot as [| | | | | |d]; try discriminate.
  unfold well_formed_slot. cbn [compose].
  rewrite slot_view_lookup by in_keys.
  unfold Dyn.typed_slot in Hts. rewrite forallb_forall in Hts.
  specialize (Hts "type"). cbn [Dyn.has_key] in Hslots.
  destruct (Dyn.lookup_key "type" d) as [x|]; [|discriminate].
  cbn. destruct x; try (by eexists); exfalso;
    (cut (false = true); [discriminate | apply Hts; cbn; tauto]).
Qed.

Lemma complete_outfits_typed (outfits : list Dyn.Json) :
  forallb Dyn.complete_outfit outfits = true → forallb Dyn.typed_outfit outfits = true.
Proof.
  induction outfits as [|v outfits IH]; cbn; [done|].
  intros [Hv Houtfits]%andb_prop. rewrite (IH Houtfits), andb_true_r.
  unfold Dyn.complete_outfit in Hv.
  by apply andb_prop in Hv as [[[? _]%andb_prop _]%andb_prop _].
Qed.

(** ** The recommendation step on a parsed suggestion *)

(** X12. For a parsed suggestion of the shape the matcher reads -- under
    ["outfit_recommendations"] a list, not empty, of dicts that each have
    a string under ["outfit_name"] and under ["clothing_items"] a list of
    dicts that have a ["type"] and whose attributes are strings or
    [null] -- a recommendation is returned, whatever the wardrobe and
    whatever else the dicts hold. *)
Theorem well_formed_suggestion_is_recommended (uid occ : string)
    (suggestion : list (string * Dyn.Json)) (outfits : list Dyn.Json)
    (wardrobe : list WardrobeItem) :
  Dyn.lookup_key "outfit_recommendations" suggestion = Some (Dyn.JList outfits) →
  outfits ≠ [] →
  forallb Dyn.complete_outfit outfits = true →
  ∃ rec,
    Dyn.generate_outfit_recommendation uid occ (Dyn.JDict suggestion) wardrobe
    = Dyn.Returns rec.
Proof.
  intros Hrecs Hne Hall.
  assert (Htyped : Dyn.typed_suggestion (Dyn.JDict suggestion) = true).
  { cbn [Dyn.typed_suggestion]. rewrite Hrecs. by apply complete_outfits_typed. }
  rewrite (generate_sim uid occ _ _ wardrobe (typed_suggestion_is_suggestion _ Htyped)).
  cbn [suggestion_view]. rewrite Hrecs.
  destruct (generate_well_formed uid occ
              (filter (λ key, key ≠ "outfit_recommendations") suggestion.*1)
              (outfit_view <$> outfits) wardrobe) as [rec ->].
  - by destruct outfits.
  - apply Forall_fmap, Forall_forall. intros v Hv. cbn [compose].
    apply complete_outfit_well_formed.
    rewrite forallb_forall in Hall. by apply Hall, list_elem_of_In.
  - by exists rec.
Qed.

Lemma well_formed_suggestion_is_recommended_witness :
  ∃ rec,
    Dyn.generate_outfit_recommendation "u1" "office" (Dyn.JDict json_office) [white_top]
    = Dyn.Returns rec.
Proof.
  eapply (well_formed_suggestion_is_recommended "u1" "office" json_office _ [white_top]).
  - reflexivity.
  - discriminate.
  - reflexivity.
Defined.

(** X13. For a parsed suggestion whose values have the types the matcher
    reads (dicts, lists, a string for a name, a string or [null] for
    an attribute; any key may be missing) the recommendation step fails
    in four ways only: with [BadRequestError] for an empty dict; with
    [TypeError] when the matcher returned its error dict; with
    [ValueError] when the list of candidate outfits is empty; and with
    the [KeyError] of the matcher, for a missing ["type"] or
    ["outfit_name"]. *)
Theorem generate_outfit_recommendation_failures (uid occ : string)
    (outfit_suggestion : Dyn.Json) (wardrobe : list WardrobeItem) (e : Dyn.error) :
  Dyn.typed_suggestion outfit_suggestion = true →
  Dyn.generate_outfit_recommendation uid occ outfit_suggestion wardrobe = Dyn.Raises e →
  (e = Dyn.Exn (BadRequestError "outfit_suggestion"
                  "Failed to generate outfit suggestion")
   ∧ Dyn.truth outfit_suggestion = false)
  ∨ (e = Dyn.Exn TypeError
     ∧ Dyn.truth outfit_suggestion = true
     ∧ ∃ msg, Dyn.match_outfit_with_wardrobe outfit_suggestion wardrobe
              = Dyn.Returns (Dyn.ErrorDict msg))
  ∨ (e = Dyn.Exn ValueError
     ∧ Dyn.truth outfit_suggestion = true
     ∧ Dyn.getitem outfit_suggestion "outfit_recommendations"
       = Dyn.Returns (Dyn.JList []))
  ∨ ((e = Dyn.Exn (KeyError "type") ∨ e = Dyn.Exn (KeyError "outfit_name"))
     ∧ Dyn.truth outfit_suggestion = true
     ∧ Dyn.match_outfit_with_wardrobe outfit_suggestion wardrobe = Dyn.Raises e).
Proof.
  intros Htyped%typed_suggestion_is_suggestion.
  rewrite (generate_sim uid occ _ _ wardrobe Htyped).
  rewrite (match_outfit_with_wardrobe_sim _ _ wardrobe Htyped).
  destruct Htyped as (items & -> & Htruth & Hrecs). rewrite Htruth.
  destruct (generate_outfit_recommendation _ _ _ _) as [rec|e'] eqn:Hgen;
    [discriminate|].
  intros [= <-].
  apply generate_raises in Hgen as [[-> ->] | [-> [[-> [msg ->]] | [[-> Hnil] | [He ->]]]]].
  - by left.
  - right; left. split; [done|]. split; [done|]. by exists msg.
  - right; right; left. split; [done|]. split; [done|].
    cbn [Dyn.getitem].
    destruct (Dyn.lookup_key "outfit_recommendations" items) as [x|].
    + destruct Hrecs as (outfits & os & -> & Hos & Hall).
      rewrite Hnil in Hos. injection Hos as <-.
      by apply Forall2_nil_inv_r in Hall as ->.
    + by rewrite Hnil in Hrecs.
  - right; right; right. split; [|done]. by destruct He as [-> | ->]; [left | right].
Qed.

Lemma generate_outfit_recommendation_failures_witness :
  (Dyn.Exn TypeError
   = Dyn.Exn (BadRequestError "outfit_suggestion" "Failed to generate outfit suggestion")
   ∧ Dyn.truth json_keyless = false)
  ∨ (Dyn.Exn TypeError = Dyn.Exn TypeError
     ∧ Dyn.truth json_keyless = true
     ∧ ∃ msg, Dyn.match_outfit_with_wardrobe json_keyless [white_top]
              = Dyn.Returns (Dyn.ErrorDict msg))
  ∨ (Dyn.Exn TypeError = Dyn.Exn ValueError
     ∧ Dyn.truth json_keyless = true
     ∧ Dyn.getitem json_keyless "outfit_recommendations" = Dyn.Returns (Dyn.JList []))
  ∨ ((Dyn.Exn TypeError = Dyn.Exn (KeyError "type")
      ∨ Dyn.Exn TypeError = Dyn.Exn (KeyError "outfit_name"))
     ∧ Dyn.truth json_keyless = true
     ∧ Dyn.match_outfit_with_wardrobe json_keyless [white_top]
       = Dyn.Raises (Dyn.Exn TypeError)).
Proof.
  apply (generate_outfit_recommendation_failures "u1" "office" json_keyless
           [white_top] (Dyn.Exn TypeError)).
  - reflexivity.
  - reflexivity.
Defined.

(** ** Outside the typed shape *)


(** [null] under ["clothing_items"]: the key is there, the loop over
    the clothing items raises. *)
Example null_clothing_items_raise :
  Dyn.match_outfit_with_wardrobe
    (Dyn.JDict [("outfit_recommendations", Dyn.JList [Dyn.JDict json_null_items])])
    [white_top]
  = Dyn.Raises (Dyn.Exn TypeError).
Proof. reflexivity. Qed.

(** A list for the color: [normalize] raises once an item of the type
    is scored, and not before. *)
Example list_valued_color :
  Dyn.find_best_match
    (Dyn.JDict [("type", Dyn.JStr "top"); ("color", Dyn.JList [Dyn.JStr "white"])])
    [white_top] ∅ []
  = Dyn.Raises Dyn.AttributeError
  ∧ Dyn.find_best_match
      (Dyn.JDict [("type", Dyn.JStr "top"); ("color", Dyn.JList [Dyn.JStr "white"])])
      [blue_bottom] ∅ []
    = Dyn.Returns (None, (-1)%float).
Proof. split; reflexivity. Qed.

(** A suggestion that is a list, or whose outfits are a dict: no key is
    found, and the error dict is returned. *)
Example list_for_a_suggestion :
  Dyn.match_outfit_with_wardrobe (Dyn.JList [Dyn.JInt 1]) [white_top]
  = Dyn.Returns (Dyn.ErrorDict "Invalid outfit suggestion format")
  ∧ Dyn.match_outfit_with_wardrobe
      (Dyn.JDict [("outfit_recommendations", Dyn.JDict [("first", Dyn.JInt 1)])])
      [white_top]
    = Dyn.Returns (Dyn.ErrorDict "No clothing items in outfit suggestion").
Proof. split; reflexivity. Qed.


